(** * Housing price prediction: the request-to-feature pipeline of [app.py]

    A shallow embedding of the [/predict] handler of [src/app.py] and the
    properties of its validation, feature assembly and error reporting.

    Conventions of the embedding:
    - a Python [str] is a [string], the UTF-8 form of its characters.
      CPython's [int] and [float] first turn the Unicode decimal digits
      and the Unicode white space of their argument into ASCII; the
      tables they use belong to the interpreter, so that this step,
      [to_ascii], is a parameter of the parsers and of the handler;
    - a Python [int] is a [Z], a Python [float] is a binary64 [spec_float];
    - an exception is a value of [exn], a call that may raise returns an
      [outcome];
    - the two unpickled collaborators ([target_encoder], [model]) are
      parameters of the handler, with a state of their own that every call
      may read and change; what they raise is an [Exception]. *)

From Stdlib Require Import ZArith List String Ascii Bool Lia.
From Stdlib Require Import Floats.SpecFloat.
Import ListNotations.

Local Open Scope string_scope.
Local Open Scope Z_scope.
Local Open Scope list_scope.

(** ** Exceptions and outcomes *)

Inductive exn : Type :=
| ValueError
| TypeError
| AttributeError
| KeyError (key : string)
| IndexError
| OtherError (name : string).

Inductive outcome (A : Type) : Type :=
| Returns (a : A)
| Raises (e : exn).

Arguments Returns {A} a.
Arguments Raises {A} e.

(** ** Python built-ins used by the handler *)

Module Py.

(** A value read from the form: [None] or a [str]. *)
Definition value := option string.

(** Truth value of a form value: [None] and [''] are falsy. *)
Definition truthy (v : value) : bool :=
  match v with
  | None => false
  | Some s => negb (s =? "")%string
  end.

Definition chars (s : string) : list ascii := list_ascii_of_string s.
Definition str (l : list ascii) : string := string_of_list_ascii l.

Definition code (c : ascii) : N := N_of_ascii c.

(** [Py_ISSPACE]: space, \t, \n, \v, \f, \r. *)
Definition isspace (c : ascii) : bool :=
  let n := code c in ((9 <=? n) && (n <=? 13) || (n =? 32))%N.

Definition isdigit (c : ascii) : bool :=
  let n := code c in ((48 <=? n) && (n <=? 57))%N.

Definition digit (c : ascii) : Z := Z.of_N (code c) - 48.

Definition isupper (c : ascii) : bool :=
  let n := code c in ((65 <=? n) && (n <=? 90))%N.

Definition islower (c : ascii) : bool :=
  let n := code c in ((97 <=? n) && (n <=? 122))%N.

Definition upper (c : ascii) : ascii :=
  if islower c then ascii_of_N (code c - 32) else c.

Definition lower (c : ascii) : ascii :=
  if isupper c then ascii_of_N (code c + 32) else c.

Fixpoint lstrip (l : list ascii) : list ascii :=
  match l with
  | c :: l' => if isspace c then lstrip l' else l
  | [] => []
  end.

Definition rstrip (l : list ascii) : list ascii := rev (lstrip (rev l)).

(** Value of a run of decimal digits, most significant first. *)
Definition decimal (ds : list ascii) : Z :=
  fold_left (fun acc d => 10 * acc + digit d) ds 0.

(** The digits of a digit string that may hold single underscores
    between digits: [None] on a leading, trailing or doubled
    underscore, on any other character, and on the empty string. *)
Fixpoint digits_with_underscores (prev_digit : bool) (l : list ascii)
  : option (list ascii) :=
  match l with
  | [] => if prev_digit then Some [] else None
  | c :: l' =>
      if isdigit c then
        option_map (cons c) (digits_with_underscores true l')
      else if (c =? "_")%char then
        if prev_digit then digits_with_underscores false l' else None
      else None
  end.

(** [sys.get_int_max_str_digits()], CPython's default. *)
Definition int_max_str_digits : nat := 4300.

Definition split_sign (l : list ascii) : bool * list ascii :=
  match l with
  | c :: l' =>
      if (c =? "-")%char then (true, l')
      else if (c =? "+")%char then (false, l')
      else (false, l)
  | [] => (false, [])
  end.

(** [PyLong_FromString] in base 10, on the ASCII form of the argument of
    [int]: optional white space, an optional sign, decimal digits with
    single underscores between them, optional white space.  More digits
    than [int_max_str_digits] is a [ValueError] as well. *)
Definition int_of_ascii (s : string) : outcome Z :=
  let '(neg, body) := split_sign (lstrip (chars s)) in
  match digits_with_underscores false (rstrip body) with
  | Some ds =>
      if (int_max_str_digits <? List.length ds)%nat then Raises ValueError
      else Returns (if neg then - decimal ds else decimal ds)
  | None => Raises ValueError
  end.

(** *** Floats: binary64 *)

Definition float := spec_float.
Definition prec : Z := 53.
Definition emax : Z := 1024.

(** [value <= 0] for a float [value] and the [int] 0: false on nan. *)
Definition float_le_0 (x : float) : bool := SFleb x (S754_zero false).

(** The binary64 nearest to [m * 10^e] (ties to even) with sign [neg],
    for [0 <= m]; an infinity when it is out of range. *)
Definition round_decimal (neg : bool) (m e : Z) : float :=
  match m with
  | Zpos p =>
      if 0 <=? e then
        binary_normalize prec emax (if neg then - (m * 10 ^ e) else m * 10 ^ e) 0 neg
      else
        SFdiv prec emax (S754_finite neg p 0)
              (S754_finite false (Z.to_pos (10 ^ (- e))) 0)
  | _ => S754_zero neg
  end.

(** Removal of the underscores of a numeric literal, which must each
    stand between two digits ([_Py_string_to_number_with_underscores]). *)
Fixpoint strip_underscores (prev : option ascii) (l : list ascii)
  : option (list ascii) :=
  let prev_is (p : ascii -> bool) :=
    match prev with Some c => p c | None => false end in
  match l with
  | [] => if prev_is (fun c => (c =? "_")%char) then None else Some []
  | c :: l' =>
      if (c =? "_")%char then
        if prev_is isdigit then strip_underscores (Some c) l' else None
      else if prev_is (fun c => (c =? "_")%char) && negb (isdigit c) then None
      else option_map (cons c) (strip_underscores (Some c) l')
  end.

(** The longest prefix of digits, and what follows it. *)
Fixpoint span_digits (l : list ascii) : list ascii * list ascii :=
  match l with
  | c :: l' =>
      if isdigit c then let '(ds, r) := span_digits l' in (c :: ds, r)
      else ([], l)
  | [] => ([], [])
  end.

Definition is_e (c : ascii) : bool := ((c =? "e") || (c =? "E"))%char.

(** An unsigned decimal literal [digits [. digits] [e [sign] digits]]
    with a digit before or after the point, as the pair [(m, e)] of the
    number [m * 10^e]. *)
Definition float_literal (l : list ascii) : option (Z * Z) :=
  let '(ip, r1) := span_digits l in
  let '(fp, r2) :=
    match r1 with
    | c :: r => if (c =? ".")%char then span_digits r else ([], r1)
    | [] => ([], r1)
    end in
  let m := decimal (ip ++ fp) in
  let scale := Z.of_nat (List.length fp) in
  match ip ++ fp with
  | [] => None
  | _ :: _ =>
      match r2 with
      | [] => Some (m, - scale)
      | c :: r =>
          if is_e c then
            let '(eneg, r') := split_sign r in
            match span_digits r' with
            | ((_ :: _) as ed, []) =>
                Some (m, (if eneg then - decimal ed else decimal ed) - scale)
            | _ => None
            end
          else None
      end
  end.

(** The parser of [float], on the ASCII form of its argument:
    surrounding white space is dropped, then underscores; what is left is
    a signed decimal literal, or a signed [inf], [infinity] or [nan] in
    any case. *)
Definition float_of_ascii (s : string) : outcome float :=
  match strip_underscores None (rstrip (lstrip (chars s))) with
  | None => Raises ValueError
  | Some l =>
      let '(neg, body) := split_sign l in
      let word := str (map lower body) in
      if ((word =? "inf") || (word =? "infinity"))%string then
        Returns (S754_infinity neg)
      else if (word =? "nan")%string then Returns S754_nan
      else
        match float_literal body with
        | Some (m, e) => Returns (round_decimal neg m e)
        | None => Raises ValueError
        end
  end.

(** *** [int] and [float] on a [str] *)

(** Every character of the string is ASCII ([PyUnicode_IS_ASCII]). *)
Definition is_ascii (s : string) : bool :=
  forallb (fun c => (code c <? 128)%N) (chars s).

Section Unicode.

(** [_PyUnicode_TransformDecimalAndSpaceToASCII], which [int] and [float]
    apply to a [str] before they parse it: a string that is ASCII is
    returned as it is; in any other string a Unicode white space becomes
    a blank and a Unicode decimal digit the ASCII digit of its value,
    and the string is cut, with a question mark, at a character that is
    neither.  Which characters are digits and spaces is the
    interpreter's table. *)
Variable to_ascii : string -> string.

(** [int(s)] for a [str] *)
Definition int_of_str (s : string) : outcome Z := int_of_ascii (to_ascii s).

(** [int(v)]: [int(None)] is a [TypeError]. *)
Definition int (v : value) : outcome Z :=
  match v with
  | Some s => int_of_str s
  | None => Raises TypeError
  end.

(** [float(s)] for a [str] *)
Definition float_of_str (s : string) : outcome float :=
  float_of_ascii (to_ascii s).

(** [float(v)]: [float(None)] is a [TypeError]. *)
Definition float_of (v : value) : outcome float :=
  match v with
  | Some s => float_of_str s
  | None => Raises TypeError
  end.

End Unicode.

(** *** Formatting with [':,.2f'] *)

(** The decimal digits of a natural number, most significant first;
    [fuel] bounds the number of digits. *)
Fixpoint digits_of (fuel : nat) (n : Z) : list ascii :=
  match fuel with
  | O => []
  | S fuel' =>
      let d := ascii_of_N (Z.to_N (n mod 10) + 48) in
      if n <? 10 then [d] else digits_of fuel' (n / 10) ++ [d]
  end.

Definition str_of_nat (n : Z) : list ascii :=
  digits_of (S (Z.to_nat (Z.log2 n))) n.

(** A comma before every group of three digits, counted from the right. *)
Fixpoint group_thousands (ds : list ascii) : list ascii :=
  match ds with
  | [] => []
  | d :: ds' =>
      d :: (if ((List.length ds' mod 3 =? 0) && negb (List.length ds' =? 0))%nat
            then ","%char :: group_thousands ds'
            else group_thousands ds')
  end.

(** The integer nearest to [n / d], ties to even, for [0 <= n], [0 < d]. *)
Definition div_half_even (n d : Z) : Z :=
  let q := n / d in
  let r := n mod d in
  match 2 * r ?= d with
  | Lt => q
  | Gt => q + 1
  | Eq => if Z.even q then q else q + 1
  end.

(** Hundredths of the absolute value of a finite float, to the nearest
    integer, ties to even. *)
Definition hundredths (m : positive) (e : Z) : Z :=
  if 0 <=? e then Zpos m * 2 ^ e * 100
  else div_half_even (Zpos m * 100) (2 ^ (- e)).

Definition fixed2 (neg : bool) (h : Z) : list ascii :=
  let frac := h mod 100 in
  (if neg then ["-"%char] else [])
    ++ group_thousands (str_of_nat (h / 100))
    ++ ["."%char; ascii_of_N (Z.to_N (frac / 10) + 48);
        ascii_of_N (Z.to_N (frac mod 10) + 48)].

(** [f"{x:,.2f}"] *)
Definition format_2f (x : float) : string :=
  match x with
  | S754_nan => "nan"
  | S754_infinity neg => if neg then "-inf" else "inf"
  | S754_zero neg => str (fixed2 neg 0)
  | S754_finite neg m e => str (fixed2 neg (hundredths m e))
  end.

(** *** [str.replace] and [str.title] *)

Fixpoint is_prefix (p l : list ascii) : bool :=
  match p, l with
  | [], _ => true
  | a :: p', b :: l' => (a =? b)%char && is_prefix p' l'
  | _ :: _, [] => false
  end.

(** Every occurrence of the non-empty [old], left to right and without
    overlap, becomes [new]; [skip] characters of a match are still to
    be dropped. *)
Fixpoint replace_from (old new : list ascii) (skip : nat) (l : list ascii)
  : list ascii :=
  match l with
  | [] => []
  | c :: l' =>
      match skip with
      | S k => replace_from old new k l'
      | O =>
          if is_prefix old l then new ++ replace_from old new (List.length old - 1) l'
          else c :: replace_from old new O l'
      end
  end.

Definition replace (old new s : string) : string :=
  str (replace_from (chars old) (chars new) O (chars s)).

(** A letter after a letter goes to lower case, any other letter to
    upper case. *)
Fixpoint title_from (prev_cased : bool) (l : list ascii) : list ascii :=
  match l with
  | [] => []
  | c :: l' =>
      let cased := isupper c || islower c in
      (if prev_cased then lower c else upper c) :: title_from cased l'
  end.

Definition title (s : string) : string := str (title_from false (chars s)).

End Py.

(** ** Data of the handler *)

(** A cell of the one-row [DataFrame], and a value of [input_data]. *)
Inductive cell : Type :=
| CInt (n : Z)
| CFloat (x : Py.float)
| CStr (s : string)
| CNone.

Definition cell_of_value (v : Py.value) : cell :=
  match v with
  | Some s => CStr s
  | None => CNone
  end.

(** A Python [dict] with [str] keys, in insertion order. *)
Definition dict : Type := list (string * cell).

(** A [DataFrame] of one row: its columns, in order. *)
Definition frame : Type := list (string * cell).

Module Dict.

(** [d[k] = v]: an existing key keeps its place. *)
Fixpoint set (k : string) (v : cell) (d : dict) : dict :=
  match d with
  | [] => [(k, v)]
  | (k', v') :: d' =>
      if (k' =? k)%string then (k, v) :: d' else (k', v') :: set k v d'
  end.

Fixpoint get (k : string) (d : dict) : option cell :=
  match d with
  | [] => None
  | (k', v') :: d' => if (k' =? k)%string then Some v' else get k d'
  end.

Definition keys (d : dict) : list string := map fst d.
Definition values (d : dict) : list cell := map snd d.

End Dict.

(** [request.form]: the submitted key/value pairs; [form.get(k)] is the
    first value of [k], or [None]. *)
Definition form : Type := list (string * string).

Fixpoint form_get (k : string) (f : form) : Py.value :=
  match f with
  | [] => None
  | (k', v) :: f' => if (k' =? k)%string then Some v else form_get k f'
  end.

(** The dictionary [data] of the six raw fields. *)
Record Data : Type := {
  city : Py.value;
  location : Py.value;
  bedrooms : Py.value;
  bathrooms : Py.value;
  floor_area : Py.value;
  floor_no : Py.value
}.

Definition data (f : form) : Data := {|
  city := form_get "City" f;
  location := form_get "Location" f;
  bedrooms := form_get "Bedrooms" f;
  bathrooms := form_get "Bathrooms" f;
  floor_area := form_get "Floor_area" f;
  floor_no := form_get "Floor_no" f
|}.

Definition data_values (d : Data) : list Py.value :=
  [city d; location d; bedrooms d; bathrooms d; floor_area d; floor_no d].

(** The dictionary [numeric_data]. *)
Record NumericData : Type := {
  num_bedrooms : Z;
  num_bathrooms : Z;
  num_floor_area : Py.float;
  num_floor_no : Z
}.

Definition VALID_CITIES : list string :=
  ["City_chattogram"; "City_cumilla"; "City_dhaka"; "City_gazipur";
   "City_narayanganj-city"].

Definition column_order : list string :=
  ["Bedrooms"; "Bathrooms"; "Floor_no"; "Floor_area"; "Location";
   "City_chattogram"; "City_cumilla"; "City_dhaka"; "City_gazipur";
   "City_narayanganj-city"].

(** [c == v] for a [str] [c] and a form value [v]. *)
Definition str_eq_value (c : string) (v : Py.value) : bool :=
  match v with
  | Some s => (c =? s)%string
  | None => false
  end.

(** [v in VALID_CITIES] *)
Definition in_valid_cities (v : Py.value) : bool :=
  existsb (fun c => str_eq_value c v) VALID_CITIES.

(** What the page templates are rendered with. *)
Record Prediction : Type := {
  page_city : string;
  page_location : Py.value;
  page_bedrooms : Z;
  page_bathrooms : Z;
  page_floor_area : Py.float;
  page_floor_no : Z;
  predicted_price : string
}.

Inductive response : Type :=
| home_page (prediction_text : string)
| prediction_page (p : Prediction).

Definition MSG_MISSING : string := "Please fill out all fields.".
Definition MSG_CITY : string := "Invalid city selected.".
Definition MSG_RANGE : string := "All numeric values must be greater than 0.".
Definition MSG_NUMBER : string :=
  "Invalid numeric input. Please check your numbers.".
Definition MSG_ERROR : string :=
  "An error occurred during prediction. Please try again.".

(** Sequencing of calls that may raise. *)
Definition obind {A B : Type} (o : outcome A) (k : A -> outcome B) : outcome B :=
  match o with
  | Returns a => k a
  | Raises e => Raises e
  end.

Notation "'let*' x ':=' o 'in' k" := (obind o (fun x => k))
  (at level 10, x name, o at level 100, k at level 200).

(** The conversions of the inner [try]: the first one that raises ends it. *)
Definition numeric_data (to_ascii : string -> string) (d : Data)
  : outcome NumericData :=
  let* b := Py.int to_ascii (bedrooms d) in
  let* ba := Py.int to_ascii (bathrooms d) in
  let* fa := Py.float_of to_ascii (floor_area d) in
  let* fn := Py.int to_ascii (floor_no d) in
  Returns {| num_bedrooms := b; num_bathrooms := ba;
             num_floor_area := fa; num_floor_no := fn |}.

(** [any(value <= 0 for value in numeric_data.values())] *)
Definition any_not_positive (nd : NumericData) : bool :=
  (num_bedrooms nd <=? 0) || (num_bathrooms nd <=? 0)
  || Py.float_le_0 (num_floor_area nd) || (num_floor_no nd <=? 0).

(** [{city: 1 if city == data['city'] else 0 for city in VALID_CITIES}] *)
Definition city_features (d : Data) : dict :=
  fold_left
    (fun acc c => Dict.set c (CInt (if str_eq_value c (city d) then 1 else 0)) acc)
    VALID_CITIES [].

(** [{**city_features, "Location": ..., "Bedrooms": ..., ...}] *)
Definition input_data (d : Data) (nd : NumericData) : dict :=
  Dict.set "Floor_no" (CInt (num_floor_no nd))
    (Dict.set "Floor_area" (CFloat (num_floor_area nd))
       (Dict.set "Bathrooms" (CInt (num_bathrooms nd))
          (Dict.set "Bedrooms" (CInt (num_bedrooms nd))
             (Dict.set "Location" (cell_of_value (location d))
                (city_features d))))).

(** [df[cols]]: the named columns in the order of [cols]; a name that is
    not a column is a [KeyError]. *)
Fixpoint select (cols : list string) (df : frame) : outcome frame :=
  match cols with
  | [] => Returns []
  | c :: cols' =>
      match Dict.get c df with
      | Some v => let* rest := select cols' df in Returns ((c, v) :: rest)
      | None => Raises (KeyError c)
      end
  end.

(** [pd.DataFrame([input_data])[column_order]]: no length is compared. *)
Definition assemble (input : dict) : outcome frame := select column_order input.

(** [city.replace('City_', '').title()]; [None] has no [replace]. *)
Definition display_city (v : Py.value) : outcome string :=
  match v with
  | Some s => Returns (Py.title (Py.replace "City_" "" s))
  | None => Raises AttributeError
  end.

(** ** The handler *)

(** A call to a collaborator, with the argument it was given. *)
Inductive event : Type :=
| EncoderTransform (arg : frame)
| ModelPredict (arg : frame).

Section Handler.

(** The state of the two unpickled objects, and their methods:
    [target_encoder.transform(df)] gives the encoded column,
    [model.predict(df)] the array of predictions. *)
Variable St : Type.
Variable target_encoder_transform : frame -> St -> outcome Py.float * St.
Variable model_predict : frame -> St -> outcome (list Py.float) * St.

(** The step of [int] and [float] that makes a [str] ASCII. *)
Variable to_ascii : string -> string.

(** What a request can change: the collaborators, and the log of the
    calls made to them. *)
Record world : Type := {
  collab : St;
  calls : list event
}.

Definition M (A : Type) : Type := world -> outcome A * world.

Definition ret {A : Type} (a : A) : M A := fun w => (Returns a, w).

Definition lift {A : Type} (o : outcome A) : M A := fun w => (o, w).

Definition bind {A B : Type} (m : M A) (k : A -> M B) : M B :=
  fun w =>
    match m w with
    | (Returns a, w') => k a w'
    | (Raises e, w') => (Raises e, w')
    end.

Notation "x <- m ;; k" := (bind m (fun x => k))
  (at level 61, m at next level, right associativity).

Definition call_encoder (arg : frame) : M Py.float :=
  fun w =>
    let '(o, s) := target_encoder_transform arg (collab w) in
    (o, {| collab := s; calls := calls w ++ [EncoderTransform arg] |}).

Definition call_model (arg : frame) : M (list Py.float) :=
  fun w =>
    let '(o, s) := model_predict arg (collab w) in
    (o, {| collab := s; calls := calls w ++ [ModelPredict arg] |}).

(** [prediction[0]] *)
Definition first (prediction : list Py.float) : outcome Py.float :=
  match prediction with
  | p :: _ => Returns p
  | [] => Raises IndexError
  end.

(** Lines 105 to 129 of [app.py]: the handler from the [DataFrame] made
    of the dictionary [input] to the rendering of [prediction.html]. *)
Definition predict_from (d : Data) (nd : NumericData) (input : dict) : M response :=
  input_df <- lift (assemble input) ;;
  location_column <- lift (select ["Location"] input_df) ;;
  encoded <- call_encoder location_column ;;
  let input_df := Dict.set "Location" (CFloat encoded) input_df in
  prediction <- call_model input_df ;;
  p0 <- lift (first prediction) ;;
  let price := Py.format_2f p0 in
  shown_city <- lift (display_city (city d)) ;;
  ret (prediction_page {|
    page_city := shown_city;
    page_location := location d;
    page_bedrooms := num_bedrooms nd;
    page_bathrooms := num_bathrooms nd;
    page_floor_area := num_floor_area nd;
    page_floor_no := num_floor_no nd;
    predicted_price := price
  |}).

(** Lines 54 to 129, the body of the outer [try]: the presence check,
    the city check, the conversions of the inner [try] with the range
    check, and the rest of the handler on [input_data]. *)
Definition predict_try (f : form) : M response :=
  let d := data f in
  if negb (forallb Py.truthy (data_values d)) then
    ret (home_page MSG_MISSING)
  else if negb (in_valid_cities (city d)) then
    ret (home_page MSG_CITY)
  else
    match numeric_data to_ascii d with
    | Returns nd =>
        if any_not_positive nd then ret (home_page MSG_RANGE)
        else predict_from d nd (input_data d nd)
    | Raises ValueError => ret (home_page MSG_NUMBER)
    | Raises e => lift (Raises e)
    end.

(** The outer [except Exception]: whatever was raised becomes the
    general message (the [print] of the handler is not modelled). *)
Definition on_exception (r : outcome response * world) : response * world :=
  match r with
  | (Returns page, w') => (page, w')
  | (Raises _, w') => (home_page MSG_ERROR, w')
  end.

(** [predict()] *)
Definition predict (f : form) : world -> response * world :=
  fun w => on_exception (predict_try f w).

End Handler.

Arguments collab {St} w.
Arguments calls {St} w.
Arguments Build_world {St} collab calls.
Arguments ret {St A} a.
Arguments lift {St A} o.
Arguments bind {St A B} m k.
Arguments call_encoder {St} target_encoder_transform arg.
Arguments call_model {St} model_predict arg.
Arguments predict_from {St} target_encoder_transform model_predict d nd input.
Arguments predict_try {St} target_encoder_transform model_predict to_ascii f.
Arguments on_exception {St} r.
Arguments predict {St} target_encoder_transform model_predict to_ascii f.

(** ** The vocabulary of the specification *)

(** The names of the six form fields. *)
Definition field_names : list string :=
  ["City"; "Location"; "Bedrooms"; "Bathrooms"; "Floor_area"; "Floor_no"].

(** A field is absent or empty. *)
Definition missing_field (f : form) : Prop :=
  exists k, In k field_names /\ (form_get k f = None \/ form_get k f = Some "").

(** Every field is a non-empty string. *)
Definition all_present (f : form) : Prop :=
  forall k, In k field_names -> exists s, form_get k f = Some s /\ s <> "".

(** The city is one of the five members of the enumeration. *)
Definition city_valid (f : form) : Prop :=
  exists c, form_get "City" f = Some c /\ In c VALID_CITIES.

(** One of the four numeric fields does not parse. *)
Definition unparseable (to_ascii : string -> string) (f : form) : Prop :=
  (exists e, Py.int to_ascii (form_get "Bedrooms" f) = Raises e)
  \/ (exists e, Py.int to_ascii (form_get "Bathrooms" f) = Raises e)
  \/ (exists e, Py.float_of to_ascii (form_get "Floor_area" f) = Raises e)
  \/ (exists e, Py.int to_ascii (form_get "Floor_no" f) = Raises e).

(** The four numeric fields parse to the values of [nd]. *)
Definition parses_to (to_ascii : string -> string) (f : form) (nd : NumericData)
  : Prop :=
  Py.int to_ascii (form_get "Bedrooms" f) = Returns (num_bedrooms nd)
  /\ Py.int to_ascii (form_get "Bathrooms" f) = Returns (num_bathrooms nd)
  /\ Py.float_of to_ascii (form_get "Floor_area" f) = Returns (num_floor_area nd)
  /\ Py.int to_ascii (form_get "Floor_no" f) = Returns (num_floor_no nd).

(** A parsed value is [<= 0]. *)
Definition out_of_range (nd : NumericData) : Prop :=
  num_bedrooms nd <= 0 \/ num_bathrooms nd <= 0
  \/ Py.float_le_0 (num_floor_area nd) = true \/ num_floor_no nd <= 0.

(** The request passes the four checks, with the numeric values [nd]. *)
Definition validated (to_ascii : string -> string) (f : form) (nd : NumericData)
  : Prop :=
  all_present f /\ city_valid f /\ parses_to to_ascii f nd /\ ~ out_of_range nd.

(** The four numeric fields of the form, where present, are ASCII. *)
Definition ascii_numbers (f : form) : Prop :=
  forall k s,
    In k ["Bedrooms"; "Bathrooms"; "Floor_area"; "Floor_no"] ->
    form_get k f = Some s -> Py.is_ascii s = true.

(** What is known of [to_ascii] without the tables of the interpreter:
    a string that is ASCII is returned as it is. *)
Definition ascii_preserving (to_ascii : string -> string) : Prop :=
  forall s, Py.is_ascii s = true -> to_ascii s = s.

(** The row of the schema: the four numeric fields, the encoded
    location, and the five city indicators [hot]. *)
Definition schema_row (nd : NumericData) (encoded : Py.float) (hot : list Z) : frame :=
  [("Bedrooms", CInt (num_bedrooms nd));
   ("Bathrooms", CInt (num_bathrooms nd));
   ("Floor_no", CInt (num_floor_no nd));
   ("Floor_area", CFloat (num_floor_area nd));
   ("Location", CFloat encoded)]
  ++ combine VALID_CITIES (map CInt hot).

(** The indicator vector with its 1 at the place of [c]. *)
Definition one_hot (c : string) : list Z :=
  map (fun k => if (k =? c)%string then 1 else 0) VALID_CITIES.

Definition sum (l : list Z) : Z := fold_right Z.add 0 l.

(** The five messages of the handler. *)
Definition messages : list string :=
  [MSG_MISSING; MSG_CITY; MSG_NUMBER; MSG_RANGE; MSG_ERROR].

(** A collaborator whose result depends on its argument only, not on the
    state it is called in. *)
Definition deterministic {St A B : Type} (m : A -> St -> outcome B * St) : Prop :=
  forall a s s', fst (m a s) = fst (m a s').

(** The page rendered for the validated values and the first
    prediction [p0]. *)
Definition page_of (f : form) (nd : NumericData) (c : string) (p0 : Py.float)
  : Prediction := {|
  page_city := Py.title (Py.replace "City_" "" c);
  page_location := form_get "Location" f;
  page_bedrooms := num_bedrooms nd;
  page_bathrooms := num_bathrooms nd;
  page_floor_area := num_floor_area nd;
  page_floor_no := num_floor_no nd;
  predicted_price := Py.format_2f p0
|}.

Arguments page_of f nd c p0 : simpl never.

(** The world after the encoder, and after the model, were called. *)
Definition after_encoder {St : Type} (enc : frame -> St -> outcome Py.float * St)
  (loc : string) (w : world St) : world St := {|
  collab := snd (enc [("Location", CStr loc)] (collab w));
  calls := calls w ++ [EncoderTransform [("Location", CStr loc)]]
|}.

Definition after_model {St : Type} (mdl : frame -> St -> outcome (list Py.float) * St)
  (row : frame) (w : world St) : world St := {|
  collab := snd (mdl row (collab w));
  calls := calls w ++ [ModelPredict row]
|}.

(** [float(n)] for a small [int]. *)
Definition float_of_Z (n : Z) : Py.float :=
  binary_normalize Py.prec Py.emax n 0 false.

(** What the handler does with a validated request: the encoder is
    called on the location, then the model on the row of the schema. *)
Definition validated_run {St : Type}
  (enc : frame -> St -> outcome Py.float * St)
  (mdl : frame -> St -> outcome (list Py.float) * St)
  (f : form) (nd : NumericData) (c loc : string) (w : world St)
  : response * world St :=
  let w1 := after_encoder enc loc w in
  match fst (enc [("Location", CStr loc)] (collab w)) with
  | Raises _ => (home_page MSG_ERROR, w1)
  | Returns v =>
      let row := schema_row nd v (one_hot c) in
      let w2 := after_model mdl row w1 in
      match fst (mdl row (collab w1)) with
      | Returns (p0 :: _) => (prediction_page (page_of f nd c p0), w2)
      | Returns [] => (home_page MSG_ERROR, w2)
      | Raises _ => (home_page MSG_ERROR, w2)
      end
  end.

(** A row in the order of the schema: the numeric fields of [nd], the
    encoded location [v], and the indicators of the five cities. *)
Definition in_schema (nd : NumericData) (v : Py.float) (row : frame) : Prop :=
  exists h0 h1 h2 h3 h4 : Z,
    row = [("Bedrooms", CInt (num_bedrooms nd));
           ("Bathrooms", CInt (num_bathrooms nd));
           ("Floor_no", CInt (num_floor_no nd));
           ("Floor_area", CFloat (num_floor_area nd));
           ("Location", CFloat v);
           ("City_chattogram", CInt h0);
           ("City_cumilla", CInt h1);
           ("City_dhaka", CInt h2);
           ("City_gazipur", CInt h3);
           ("City_narayanganj-city", CInt h4)]
    /\ Forall (fun h => h = 0 \/ h = 1) [h0; h1; h2; h3; h4]
    /\ h0 + h1 + h2 + h3 + h4 = 1.

(** The number of calls to [model.predict] in a log. *)
Definition model_calls (log : list event) : nat :=
  List.length (filter (fun ev => match ev with ModelPredict _ => true | _ => false end) log).

(** ** Loading the collaborators at import (lines 11 to 33) *)

Definition MODEL_PATH : string := "model1.pkl".
Definition ENCODER_PATH : string := "target_encoder.pkl".

(** [FileNotFoundError(f"... file {path} not found")] *)
Definition FileNotFoundError : exn := OtherError "FileNotFoundError".

Section Startup.

(** The files at import: [os.path.exists(path)], and what opening the
    file and [pickle.load] on it give. *)
Variable Obj : Type.
Variable path_exists : string -> bool.
Variable pickle_load : string -> outcome Obj.

(** [if os.path.exists(path): ... pickle.load(file) else: raise
    FileNotFoundError(...)] *)
Definition load_file (path : string) : outcome Obj :=
  if path_exists path then pickle_load path else Raises FileNotFoundError.

(** The [try] of lines 16 to 29: the model first, then the encoder.  The
    handler of lines 31 to 33 prints and raises again, so that the module
    is imported exactly when this returns. *)
Definition load_models : outcome (Obj * Obj) :=
  let* model := load_file MODEL_PATH in
  let* target_encoder := load_file ENCODER_PATH in
  Returns (model, target_encoder).

End Startup.

Arguments load_file {Obj} path_exists pickle_load path.
Arguments load_models {Obj} path_exists pickle_load.

(** ** More vocabulary *)

(** [str(n)] for an [int] [n >= 0]. *)
Definition numeral (n : Z) : string := Py.str (Py.str_of_nat n).

(** A formatted number without its thousands separators. *)
Definition ungroup (l : list ascii) : list ascii :=
  filter (fun c => negb (c =? ",")%char) l.

(** The integer of a cell that holds one. *)
Definition cell_int (c : cell) : Z :=
  match c with
  | CInt n => n
  | _ => 0
  end.

(** The names shown for the five cities. *)
Definition city_names : list string :=
  ["Chattogram"; "Cumilla"; "Dhaka"; "Gazipur"; "Narayanganj-City"].

(** ** Stub collaborators *)

Module Stub.

(** An [Encoder] that always gives [x]. *)
Definition encoder (x : Py.float) : frame -> unit -> outcome Py.float * unit :=
  fun _ s => (Returns x, s).

(** A [Model] that always gives the one-row prediction [[x]]. *)
Definition model (x : Py.float) : frame -> unit -> outcome (list Py.float) * unit :=
  fun _ s => (Returns [x], s).

(** A [Model] that gives an empty array. *)
Definition empty_model : frame -> unit -> outcome (list Py.float) * unit :=
  fun _ s => (Returns [], s).

(** Collaborators that raise. *)
Definition failing_encoder : frame -> unit -> outcome Py.float * unit :=
  fun _ s => (Raises (OtherError "encoder"), s).

Definition failing_model : frame -> unit -> outcome (list Py.float) * unit :=
  fun _ s => (Raises (OtherError "model"), s).

(** Collaborators that count their calls, and give the same result at
    every call. *)
Definition counting_encoder (x : Py.float) : frame -> nat -> outcome Py.float * nat :=
  fun _ n => (Returns x, S n).

Definition counting_model (x : Py.float) : frame -> nat -> outcome (list Py.float) * nat :=
  fun _ n => (Returns [x], S n).

Definition start {St : Type} (s : St) : world St :=
  {| collab := s; calls := [] |}.

(** [to_ascii] where every string it is given is ASCII, as the values of
    the requests below are. *)
Definition to_ascii : string -> string := fun s => s.

(** The UTF-8 form of U+FF13, the full-width digit three, and a
    [to_ascii] that knows this digit. *)
Definition fullwidth_three : string :=
  String (ascii_of_N 239) (String (ascii_of_N 188) (String (ascii_of_N 147) "")).

Definition to_ascii_fullwidth : string -> string :=
  fun s => if (s =? fullwidth_three)%string then "3" else s.

(** The request of the scenario. *)
Definition request : form :=
  [("City", "City_dhaka"); ("Location", "Mirpur"); ("Bedrooms", "3");
   ("Bathrooms", "2"); ("Floor_area", "1200.5"); ("Floor_no", "4")].

(** Its numeric values. *)
Definition numeric : NumericData := {|
  num_bedrooms := 3;
  num_bathrooms := 2;
  num_floor_area := Py.round_decimal false 12005 (-1);
  num_floor_no := 4
|}.

(** The same request with the value [v] for the field [k]. *)
Definition request_with (k v : string) : form :=
  map (fun kv => if (fst kv =? k)%string then (k, v) else kv) request.

(** The same request without the field [k]. *)
Definition request_without (k : string) : form :=
  filter (fun kv => negb (fst kv =? k)%string) request.

(** The dictionary [input_data] of the scenario with one more field,
    and with the field [Floor_no] left out. *)
Definition input_extra : dict :=
  [("City_chattogram", CInt 0); ("City_cumilla", CInt 0);
   ("City_dhaka", CInt 1); ("City_gazipur", CInt 0);
   ("City_narayanganj-city", CInt 0); ("Location", CStr "Mirpur");
   ("Bedrooms", CInt 3); ("Bathrooms", CInt 2);
   ("Floor_area", CFloat (Py.round_decimal false 12005 (-1)));
   ("Floor_no", CInt 4); ("Garage", CInt 1)].

Definition input_short : dict :=
  [("City_chattogram", CInt 0); ("City_cumilla", CInt 0);
   ("City_dhaka", CInt 1); ("City_gazipur", CInt 0);
   ("City_narayanganj-city", CInt 0); ("Location", CStr "Mirpur");
   ("Bedrooms", CInt 3); ("Bathrooms", CInt 2);
   ("Floor_area", CFloat (Py.round_decimal false 12005 (-1)))].

End Stub.

(** ** The built-ins on examples *)

Example int_examples :
  map Py.int_of_ascii [" 42 "; "-1"; "+7"; "1_000"; "0"]
  = [Returns 42; Returns (-1); Returns 7; Returns 1000; Returns 0]
  /\ map Py.int_of_ascii [""; " "; "abc"; "1.5"; "- 1"; "1__0"; "_1"; "1_"; "1 2"]
     = repeat (Raises ValueError) 9.
Proof. split; vm_compute; reflexivity. Qed.

Example float_examples :
  map Py.float_of_ascii ["1200.5"; "0.1"; " -2.5e-1 "; "1_0."; ".5"; "0"; "-0.0"]
  = [Returns (S754_finite false 5279854836580352 (-42));
     Returns (S754_finite false 7205759403792794 (-56));
     Returns (S754_finite true 4503599627370496 (-54));
     Returns (S754_finite false 5629499534213120 (-49));
     Returns (S754_finite false 4503599627370496 (-53));
     Returns (S754_zero false); Returns (S754_zero true)]
  /\ map Py.float_of_ascii ["1e400"; "-Infinity"; "inf"; "NaN"; "1e-400"]
     = [Returns (S754_infinity false); Returns (S754_infinity true);
        Returns (S754_infinity false); Returns S754_nan;
        Returns (S754_zero false)]
  /\ map Py.float_of_ascii [""; "."; "abc"; "1e"; "1_.5"; "0x10"; "1,5"; "infin"]
     = repeat (Raises ValueError) 8.
Proof. repeat split; vm_compute; reflexivity. Qed.

Example float_le_0_examples :
  map Py.float_le_0
    [S754_zero false; S754_zero true; S754_finite true 1 0;
     S754_infinity true; S754_finite false 1 0; S754_infinity false; S754_nan]
  = [true; true; true; true; false; false; false].
Proof. reflexivity. Qed.

Example format_examples :
  map Py.format_2f
    [float_of_Z 4500000; float_of_Z 0; float_of_Z 999; float_of_Z 1000;
     float_of_Z (-1234567); S754_finite false 1 (-3);
     S754_finite false 3 (-3); S754_infinity false; S754_nan]
  = ["4,500,000.00"; "0.00"; "999.00"; "1,000.00"; "-1,234,567.00";
     "0.12"; "0.38"; "inf"; "nan"].
Proof. vm_compute. reflexivity. Qed.

Example display_city_examples :
  map (fun c => display_city (Some c)) VALID_CITIES
  = [Returns "Chattogram"; Returns "Cumilla"; Returns "Dhaka";
     Returns "Gazipur"; Returns "Narayanganj-City"].
Proof. vm_compute. reflexivity. Qed.

(** A Unicode digit in a numeric field is read as its value. *)
Example fullwidth_digit_example :
  Py.is_ascii Stub.fullwidth_three = false
  /\ Py.int_of_str Stub.to_ascii_fullwidth Stub.fullwidth_three = Returns 3
  /\ fst (predict (Stub.encoder (float_of_Z 7)) (Stub.model (float_of_Z 4500000))
            Stub.to_ascii_fullwidth
            (Stub.request_with "Bedrooms" Stub.fullwidth_three) (Stub.start tt))
     = prediction_page {|
         page_city := "Dhaka";
         page_location := Some "Mirpur";
         page_bedrooms := 3;
         page_bathrooms := 2;
         page_floor_area := Py.round_decimal false 12005 (-1);
         page_floor_no := 4;
         predicted_price := "4,500,000.00" |}.
Proof. repeat split; vm_compute; reflexivity. Qed.

(** The digits written for a number read back as that number. *)
Lemma decimal_app (l : list ascii) (d : ascii) :
  Py.decimal (l ++ [d]) = 10 * Py.decimal l + Py.digit d.
Proof. unfold Py.decimal. rewrite fold_left_app. reflexivity. Qed.

Lemma digit_of_char (k : Z) :
  0 <= k < 10 -> Py.digit (ascii_of_N (Z.to_N k + 48)) = k.
Proof.
  intros H. unfold Py.digit, Py.code.
  rewrite N_ascii_embedding by lia.
  rewrite N2Z.inj_add, Z2N.id by lia. simpl. lia.
Qed.

Lemma digits_of_decimal (fuel : nat) (n : Z) :
  0 <= n < 10 ^ Z.of_nat fuel -> Py.decimal (Py.digits_of fuel n) = n.
Proof.
  revert n. induction fuel as [|fuel IH]; intros n H.
  - change (0 = n). change (10 ^ Z.of_nat 0) with 1 in H. lia.
  - cbn [Py.digits_of]. cbv zeta.
    assert (D : 0 <= n mod 10 < 10) by (apply Z.mod_pos_bound; lia).
    destruct (Z.ltb_spec n 10) as [L | L].
    + unfold Py.decimal. cbn [fold_left].
      rewrite (digit_of_char _ D). rewrite Z.mod_small by lia. lia.
    + rewrite decimal_app, (digit_of_char _ D), IH.
      * pose proof (Z.div_mod n 10). lia.
      * rewrite Nat2Z.inj_succ, Z.pow_succ_r in H by lia.
        split; [apply Z.div_pos; lia|].
        apply Z.div_lt_upper_bound; lia.
Qed.

Lemma str_of_nat_decimal (n : Z) :
  0 <= n -> Py.decimal (Py.str_of_nat n) = n.
Proof.
  intros H. unfold Py.str_of_nat. apply digits_of_decimal.
  split; [assumption|].
  destruct (Z.eq_dec n 0) as [-> | N]; [reflexivity|].
  rewrite Nat2Z.inj_succ, Z2Nat.id by apply Z.log2_nonneg.
  pose proof (Z.log2_spec n ltac:(lia)) as [_ U].
  apply Z.lt_le_trans with (1 := U).
  apply Z.pow_le_mono_l. pose proof (Z.log2_nonneg n). lia.
Qed.

(** ** Lemmas on the checks *)

Lemma truthy_spec (v : Py.value) :
  Py.truthy v = true <-> exists s, v = Some s /\ s <> "".
Proof.
  destruct v as [s|]; simpl.
  - rewrite negb_true_iff. split.
    + intros H. exists s. split; [reflexivity|].
      intros ->. discriminate.
    + intros (s' & E & N). injection E as <-.
      destruct (String.eqb_spec s ""); congruence.
  - split; [discriminate|]. intros (s & E & _). discriminate.
Qed.

Lemma present_spec (f : form) :
  forallb Py.truthy (data_values (data f)) = true <-> all_present f.
Proof.
  unfold all_present, data_values, data, field_names; simpl.
  repeat rewrite andb_true_iff. repeat rewrite truthy_spec. split.
  - intros (H1 & H2 & H3 & H4 & H5 & H6 & _) k Hk.
    repeat (destruct Hk as [<- | Hk]; [assumption|]). contradiction.
  - intros H. repeat split; apply H; simpl; tauto.
Qed.

Lemma missing_spec (f : form) :
  forallb Py.truthy (data_values (data f)) = false <-> missing_field f.
Proof.
  split.
  - intros H. unfold data_values, data in H; simpl in H.
    assert (T : forall k, Py.truthy (form_get k f) = false ->
                          form_get k f = None \/ form_get k f = Some "").
    { intros k. destruct (form_get k f) as [s|]; simpl; [|tauto].
      rewrite negb_false_iff. intros E%String.eqb_eq. subst. tauto. }
    repeat (apply andb_false_iff in H; destruct H as [H | H];
            [eexists; split; [|apply (T _ H)]; simpl; tauto|]).
    discriminate.
  - intros (k & Hk & Hv).
    destruct (forallb Py.truthy (data_values (data f))) eqn:E; [|reflexivity].
    apply present_spec in E. destruct (E k Hk) as (s & Es & Ns).
    destruct Hv as [Hv | Hv]; congruence.
Qed.

Lemma missing_or_present (f : form) : missing_field f \/ all_present f.
Proof.
  destruct (forallb Py.truthy (data_values (data f))) eqn:E.
  - right. now apply present_spec.
  - left. now apply missing_spec.
Qed.

Lemma present_not_missing (f : form) : all_present f -> ~ missing_field f.
Proof.
  intros P M. apply missing_spec in M. apply present_spec in P. congruence.
Qed.

Lemma city_spec (f : form) :
  in_valid_cities (city (data f)) = true <-> city_valid f.
Proof.
  unfold in_valid_cities, city_valid, data; cbn [city].
  rewrite existsb_exists. split.
  - intros (c & Hc & E). destruct (form_get "City" f) as [s|]; simpl in E.
    + apply String.eqb_eq in E. subst. eauto.
    + discriminate.
  - intros (c & E & Hc). exists c. split; [assumption|].
    rewrite E. simpl. apply String.eqb_refl.
Qed.

Lemma any_not_positive_spec (nd : NumericData) :
  any_not_positive nd = true <-> out_of_range nd.
Proof.
  unfold any_not_positive, out_of_range.
  repeat rewrite orb_true_iff. repeat rewrite Z.leb_le. tauto.
Qed.

Lemma numeric_data_spec (to_ascii : string -> string) (f : form) (nd : NumericData) :
  numeric_data to_ascii (data f) = Returns nd <-> parses_to to_ascii f nd.
Proof.
  unfold numeric_data, parses_to; simpl. split.
  - destruct (Py.int to_ascii (form_get "Bedrooms" f)); simpl; [|discriminate].
    destruct (Py.int to_ascii (form_get "Bathrooms" f)); simpl; [|discriminate].
    destruct (Py.float_of to_ascii (form_get "Floor_area" f)); simpl; [|discriminate].
    destruct (Py.int to_ascii (form_get "Floor_no" f)); simpl; [|discriminate].
    intros [= <-]. simpl. tauto.
  - intros (-> & -> & -> & ->). simpl. now destruct nd.
Qed.

(** On a [str], [int] and [float] raise nothing but [ValueError]. *)
Lemma int_of_ascii_raises (s : string) (e : exn) :
  Py.int_of_ascii s = Raises e -> e = ValueError.
Proof.
  unfold Py.int_of_ascii.
  destruct (Py.split_sign _) as [neg body].
  destruct (Py.digits_with_underscores _ _); [|congruence].
  destruct (_ <? _)%nat; congruence.
Qed.

Lemma float_of_ascii_raises (s : string) (e : exn) :
  Py.float_of_ascii s = Raises e -> e = ValueError.
Proof.
  unfold Py.float_of_ascii.
  destruct (Py.strip_underscores _ _); [|congruence].
  destruct (Py.split_sign _) as [neg body].
  destruct (_ || _)%bool; [congruence|].
  destruct (_ =? _)%string; [congruence|].
  destruct (Py.float_literal _) as [[m x]|]; congruence.
Qed.

Lemma numeric_data_unparseable (to_ascii : string -> string) (f : form) :
  all_present f -> unparseable to_ascii f ->
  numeric_data to_ascii (data f) = Raises ValueError.
Proof.
  intros P U. unfold numeric_data, unparseable in *; simpl.
  destruct (P "Bedrooms") as (b & Eb & _); [simpl; tauto|].
  destruct (P "Bathrooms") as (ba & Eba & _); [simpl; tauto|].
  destruct (P "Floor_area") as (fa & Efa & _); [simpl; tauto|].
  destruct (P "Floor_no") as (fn & Efn & _); [simpl; tauto|].
  rewrite Eb, Eba, Efa, Efn in *.
  unfold Py.int, Py.float_of, Py.int_of_str, Py.float_of_str in *.
  destruct (Py.int_of_ascii (to_ascii b)) eqn:Ib; cbn [obind];
    [|now rewrite (int_of_ascii_raises _ _ Ib)].
  destruct (Py.int_of_ascii (to_ascii ba)) eqn:Iba; cbn [obind];
    [|now rewrite (int_of_ascii_raises _ _ Iba)].
  destruct (Py.float_of_ascii (to_ascii fa)) eqn:Ifa; cbn [obind];
    [|now rewrite (float_of_ascii_raises _ _ Ifa)].
  destruct (Py.int_of_ascii (to_ascii fn)) eqn:Ifn; cbn [obind];
    [|now rewrite (int_of_ascii_raises _ _ Ifn)].
  destruct U as [(e & U) | [(e & U) | [(e & U) | (e & U)]]]; discriminate.
Qed.

Lemma parses_or_unparseable (to_ascii : string -> string) (f : form) :
  (exists nd, parses_to to_ascii f nd) \/ unparseable to_ascii f.
Proof.
  unfold parses_to, unparseable.
  destruct (Py.int to_ascii (form_get "Bedrooms" f)) as [b|] eqn:Eb; [|eauto 6].
  destruct (Py.int to_ascii (form_get "Bathrooms" f)) as [ba|] eqn:Eba; [|eauto 6].
  destruct (Py.float_of to_ascii (form_get "Floor_area" f)) as [fa|] eqn:Efa;
    [|eauto 6].
  destruct (Py.int to_ascii (form_get "Floor_no" f)) as [fn|] eqn:Efn; [|eauto 7].
  left. exists {| num_bedrooms := b; num_bathrooms := ba;
                  num_floor_area := fa; num_floor_no := fn |}.
  simpl. tauto.
Qed.

(** ** Lemmas on the assembly *)

Lemma city_features_eq (d : Data) :
  city_features d
  = map (fun k => (k, CInt (if str_eq_value k (city d) then 1 else 0))) VALID_CITIES.
Proof. reflexivity. Qed.

Lemma input_data_eq (d : Data) (nd : NumericData) :
  input_data d nd
  = city_features d
      ++ [("Location", cell_of_value (location d));
          ("Bedrooms", CInt (num_bedrooms nd));
          ("Bathrooms", CInt (num_bathrooms nd));
          ("Floor_area", CFloat (num_floor_area nd));
          ("Floor_no", CInt (num_floor_no nd))].
Proof. reflexivity. Qed.

Lemma input_data_length (d : Data) (nd : NumericData) :
  List.length (input_data d nd) = 10%nat.
Proof. reflexivity. Qed.

(** Whatever [assemble] returns has the ten columns of [column_order]. *)
Lemma select_keys (cols : list string) (df row : frame) :
  select cols df = Returns row -> Dict.keys row = cols.
Proof.
  revert row. induction cols as [|c cols IH]; simpl; intros row.
  - intros [= <-]. reflexivity.
  - destruct (Dict.get c df) as [v|]; [|discriminate].
    destruct (select cols df) as [rest|]; simpl; [|discriminate].
    intros [= <-]. simpl. f_equal. now apply IH.
Qed.

Lemma assemble_columns (input : dict) (row : frame) :
  assemble input = Returns row ->
  Dict.keys row = column_order /\ List.length row = 10%nat.
Proof.
  intros H. apply select_keys in H. split; [assumption|].
  unfold Dict.keys in H.
  rewrite <- (length_map fst row), H. reflexivity.
Qed.

Lemma assemble_input_data (d : Data) (nd : NumericData) (c loc : string) :
  city d = Some c -> location d = Some loc ->
  assemble (input_data d nd)
  = Returns (Dict.set "Location" (CStr loc)
               (schema_row nd (S754_zero false) (one_hot c))).
Proof.
  intros Ec El. unfold assemble, input_data, city_features.
  rewrite Ec, El. reflexivity.
Qed.

Lemma set_location_schema_row (nd : NumericData) (v : cell) (x : Py.float) (hot : list Z) :
  Dict.set "Location" v (schema_row nd x hot)
  = [("Bedrooms", CInt (num_bedrooms nd));
     ("Bathrooms", CInt (num_bathrooms nd));
     ("Floor_no", CInt (num_floor_no nd));
     ("Floor_area", CFloat (num_floor_area nd));
     ("Location", v)] ++ combine VALID_CITIES (map CInt hot).
Proof. reflexivity. Qed.

Lemma one_hot_valid (c : string) :
  In c VALID_CITIES ->
  List.length (one_hot c) = 5%nat /\ sum (one_hot c) = 1
  /\ Forall (fun x => x = 0 \/ x = 1) (one_hot c).
Proof.
  intros H. split; [reflexivity|].
  simpl in H.
  repeat (destruct H as [<- | H];
          [split; [reflexivity | repeat constructor; tauto]|]).
  contradiction.
Qed.

Lemma schema_row_columns (nd : NumericData) (x : Py.float) (c : string) :
  List.length (schema_row nd x (one_hot c)) = 10%nat
  /\ Dict.keys (schema_row nd x (one_hot c)) = column_order.
Proof. split; reflexivity. Qed.

(** ** Lemmas on the handler *)

Section Runs.

Variable St : Type.
Variable enc : frame -> St -> outcome Py.float * St.
Variable mdl : frame -> St -> outcome (list Py.float) * St.
Variable to_ascii : string -> string.

Lemma predict_missing (f : form) (w : world St) :
  missing_field f -> predict enc mdl to_ascii f w = (home_page MSG_MISSING, w).
Proof.
  intros H%missing_spec. unfold predict, predict_try. now rewrite H.
Qed.

Lemma predict_city (f : form) (w : world St) :
  all_present f -> ~ city_valid f ->
  predict enc mdl to_ascii f w = (home_page MSG_CITY, w).
Proof.
  intros P%present_spec C. unfold predict, predict_try. rewrite P.
  destruct (in_valid_cities (city (data f))) eqn:E; [|reflexivity].
  apply city_spec in E. contradiction.
Qed.

Lemma predict_number (f : form) (w : world St) :
  all_present f -> city_valid f -> unparseable to_ascii f ->
  predict enc mdl to_ascii f w = (home_page MSG_NUMBER, w).
Proof.
  intros P C%city_spec U. unfold predict, predict_try.
  rewrite (numeric_data_unparseable to_ascii f P U).
  apply present_spec in P. rewrite P, C. reflexivity.
Qed.

Lemma predict_range (f : form) (nd : NumericData) (w : world St) :
  all_present f -> city_valid f -> parses_to to_ascii f nd -> out_of_range nd ->
  predict enc mdl to_ascii f w = (home_page MSG_RANGE, w).
Proof.
  intros P%present_spec C%city_spec N%numeric_data_spec R%any_not_positive_spec.
  unfold predict, predict_try. rewrite P, C, N, R. reflexivity.
Qed.

Lemma predict_validated (f : form) (nd : NumericData) (w : world St) :
  validated to_ascii f nd ->
  predict enc mdl to_ascii f w
  = on_exception (predict_from enc mdl (data f) nd (input_data (data f) nd) w).
Proof.
  intros (P%present_spec & C%city_spec & N%numeric_data_spec & R).
  unfold predict, predict_try. rewrite P, C, N.
  destruct (any_not_positive nd) eqn:E; [|reflexivity].
  apply any_not_positive_spec in E. contradiction.
Qed.

(** The run of the handler past the checks, call by call. *)
Lemma predict_from_run (f : form) (nd : NumericData) (c loc : string) (w : world St) :
  form_get "City" f = Some c -> form_get "Location" f = Some loc ->
  predict_from enc mdl (data f) nd (input_data (data f) nd) w
  = let w1 := after_encoder enc loc w in
    match fst (enc [("Location", CStr loc)] (collab w)) with
    | Raises e => (Raises e, w1)
    | Returns v =>
        let row := schema_row nd v (one_hot c) in
        let w2 := after_model mdl row w1 in
        match fst (mdl row (collab w1)) with
        | Raises e => (Raises e, w2)
        | Returns [] => (Raises IndexError, w2)
        | Returns (p0 :: _) => (Returns (prediction_page (page_of f nd c p0)), w2)
        end
    end.
Proof.
  intros Ec El. unfold predict_from, bind, lift.
  rewrite (assemble_input_data (data f) nd c loc Ec El).
  rewrite set_location_schema_row.
  change (select ["Location"] _) with (Returns [("Location", CStr loc)]).
  cbv beta iota. unfold call_encoder, after_encoder.
  destruct (enc [("Location", CStr loc)] (collab w)) as [[v|e] s1];
    cbn [fst snd]; [|reflexivity].
  change (Dict.set "Location" (CFloat v) _) with (schema_row nd v (one_hot c)).
  unfold call_model, after_model. cbn [collab calls].
  destruct (mdl (schema_row nd v (one_hot c)) s1) as [[[|p0 rest]|e] s2];
    cbn [fst snd first]; try reflexivity.
  unfold display_city, data, ret, page_of; cbn [city location].
  rewrite Ec. reflexivity.
Qed.

End Runs.


Section Cases.

Variable St : Type.
Variable enc : frame -> St -> outcome Py.float * St.
Variable mdl : frame -> St -> outcome (list Py.float) * St.
Variable to_ascii : string -> string.

Lemma validated_fields (f : form) (nd : NumericData) :
  validated to_ascii f nd ->
  exists c loc,
    form_get "City" f = Some c /\ In c VALID_CITIES
    /\ form_get "Location" f = Some loc /\ loc <> "".
Proof.
  intros (P & (c & Ec & Hc) & _).
  destruct (P "Location") as (loc & El & Nl); [simpl; tauto|].
  exists c, loc. tauto.
Qed.

Lemma predict_validated_run (f : form) (nd : NumericData) (c loc : string) (w : world St) :
  validated to_ascii f nd ->
  form_get "City" f = Some c -> form_get "Location" f = Some loc ->
  predict enc mdl to_ascii f w = validated_run enc mdl f nd c loc w.
Proof.
  intros V Ec El. rewrite (predict_validated St enc mdl to_ascii f nd w V).
  rewrite (predict_from_run St enc mdl f nd c loc w Ec El).
  unfold validated_run. cbv zeta.
  destruct (fst (enc _ _)) as [v|e]; [|reflexivity].
  destruct (fst (mdl _ _)) as [[|p0 rest]|e]; reflexivity.
Qed.

(** The five ways through the handler. *)
Lemma predict_cases (f : form) (w : world St) :
  (missing_field f /\ predict enc mdl to_ascii f w = (home_page MSG_MISSING, w))
  \/ (all_present f /\ ~ city_valid f
      /\ predict enc mdl to_ascii f w = (home_page MSG_CITY, w))
  \/ (all_present f /\ city_valid f /\ unparseable to_ascii f
      /\ predict enc mdl to_ascii f w = (home_page MSG_NUMBER, w))
  \/ (exists nd, all_present f /\ city_valid f /\ parses_to to_ascii f nd
                 /\ out_of_range nd
                 /\ predict enc mdl to_ascii f w = (home_page MSG_RANGE, w))
  \/ (exists nd c loc,
         validated to_ascii f nd /\ form_get "City" f = Some c /\ In c VALID_CITIES
         /\ form_get "Location" f = Some loc
         /\ predict enc mdl to_ascii f w = validated_run enc mdl f nd c loc w).
Proof.
  destruct (missing_or_present f) as [M | P].
  { left. split; [assumption | now apply predict_missing]. }
  right.
  destruct (in_valid_cities (city (data f))) eqn:C.
  2:{ left. assert (~ city_valid f).
      { intros H%city_spec. congruence. }
      split; [assumption|]. split; [assumption|]. now apply predict_city. }
  apply city_spec in C. right.
  destruct (parses_or_unparseable to_ascii f) as [(nd & N) | U].
  2:{ left. repeat (split; [assumption|]). now apply predict_number. }
  right.
  destruct (any_not_positive nd) eqn:R.
  { left. apply any_not_positive_spec in R. exists nd.
    repeat (split; [assumption|]). now apply predict_range with nd. }
  right.
  assert (V : validated to_ascii f nd).
  { repeat (split; [assumption|]).
    intros H%any_not_positive_spec. congruence. }
  destruct (validated_fields f nd V) as (c & loc & Ec & Hc & El & _).
  exists nd, c, loc. repeat (split; [assumption|]).
  now apply predict_validated_run.
Qed.

Lemma schema_row_in_schema (nd : NumericData) (v : Py.float) (c : string) :
  In c VALID_CITIES -> in_schema nd v (schema_row nd v (one_hot c)).
Proof.
  intros H. simpl in H. unfold in_schema.
  repeat (destruct H as [<- | H];
          [do 5 eexists; split; [reflexivity|];
           split; [repeat constructor; tauto | reflexivity]|]).
  contradiction.
Qed.

Lemma validated_run_calls (f : form) (nd : NumericData) (c loc : string) (w : world St) :
  calls (snd (validated_run enc mdl f nd c loc w))
  = calls w ++ EncoderTransform [("Location", CStr loc)]
      :: match fst (enc [("Location", CStr loc)] (collab w)) with
         | Returns v => [ModelPredict (schema_row nd v (one_hot c))]
         | Raises _ => []
         end.
Proof.
  unfold validated_run. cbv zeta.
  destruct (fst (enc _ _)) as [v|e]; [|reflexivity].
  destruct (fst (mdl _ _)) as [[|p0 rest]|e];
    cbn [snd after_model after_encoder calls];
    now rewrite <- app_assoc.
Qed.

Lemma validated_run_page (f : form) (nd : NumericData) (c loc : string)
      (w : world St) (p : Prediction) :
  fst (validated_run enc mdl f nd c loc w) = prediction_page p ->
  exists v p0 rest,
    fst (enc [("Location", CStr loc)] (collab w)) = Returns v
    /\ fst (mdl (schema_row nd v (one_hot c))
                (collab (after_encoder enc loc w))) = Returns (p0 :: rest)
    /\ p = page_of f nd c p0.
Proof.
  unfold validated_run. cbv zeta.
  destruct (fst (enc _ _)) as [v|e]; [|discriminate].
  destruct (fst (mdl _ _)) as [[|p0 rest]|e] eqn:E; try discriminate.
  cbn [fst]. intros [= <-]. exists v, p0, rest. auto.
Qed.

End Cases.

(** ** Requests with ASCII numbers *)

Lemma stub_ascii_preserving : ascii_preserving Stub.to_ascii.
Proof. intros s _. reflexivity. Qed.

Lemma int_ascii (to_ascii : string -> string) (v : Py.value) :
  ascii_preserving to_ascii ->
  (forall s, v = Some s -> Py.is_ascii s = true) ->
  Py.int to_ascii v = Py.int Stub.to_ascii v.
Proof.
  intros A H. destruct v as [s|]; [|reflexivity].
  unfold Py.int, Py.int_of_str, Stub.to_ascii. now rewrite A by auto.
Qed.

Lemma float_ascii (to_ascii : string -> string) (v : Py.value) :
  ascii_preserving to_ascii ->
  (forall s, v = Some s -> Py.is_ascii s = true) ->
  Py.float_of to_ascii v = Py.float_of Stub.to_ascii v.
Proof.
  intros A H. destruct v as [s|]; [|reflexivity].
  unfold Py.float_of, Py.float_of_str, Stub.to_ascii. now rewrite A by auto.
Qed.

Lemma numeric_data_ascii (to_ascii : string -> string) (f : form) :
  ascii_preserving to_ascii -> ascii_numbers f ->
  numeric_data to_ascii (data f) = numeric_data Stub.to_ascii (data f).
Proof.
  intros A H. unfold numeric_data, data; cbn [bedrooms bathrooms floor_area floor_no].
  rewrite (int_ascii to_ascii (form_get "Bedrooms" f) A),
    (int_ascii to_ascii (form_get "Bathrooms" f) A),
    (float_ascii to_ascii (form_get "Floor_area" f) A),
    (int_ascii to_ascii (form_get "Floor_no" f) A);
    [reflexivity | ..]; intros s E; apply (H _ s) in E; simpl; tauto.
Qed.

(** On a request whose numbers are ASCII the handler does not depend on
    the tables of the interpreter. *)
Lemma predict_ascii {St : Type}
    (enc : frame -> St -> outcome Py.float * St)
    (mdl : frame -> St -> outcome (list Py.float) * St)
    (to_ascii : string -> string) (f : form) (w : world St) :
  ascii_preserving to_ascii -> ascii_numbers f ->
  predict enc mdl to_ascii f w = predict enc mdl Stub.to_ascii f w.
Proof.
  intros A H. unfold predict, predict_try.
  now rewrite (numeric_data_ascii to_ascii f A H).
Qed.

Lemma parses_to_ascii (to_ascii : string -> string) (f : form) (nd : NumericData) :
  ascii_preserving to_ascii -> ascii_numbers f ->
  parses_to Stub.to_ascii f nd -> parses_to to_ascii f nd.
Proof.
  intros A H N. apply numeric_data_spec.
  rewrite (numeric_data_ascii to_ascii f A H). now apply numeric_data_spec.
Qed.

Lemma validated_ascii (to_ascii : string -> string) (f : form) (nd : NumericData) :
  ascii_preserving to_ascii -> ascii_numbers f ->
  validated Stub.to_ascii f nd -> validated to_ascii f nd.
Proof.
  intros A H (P & C & N & R). repeat (split; [assumption|]).
  split; [now apply parses_to_ascii | assumption].
Qed.

(** ** Tactics for concrete requests *)

Ltac solve_ascii_numbers :=
  let k := fresh "k" in
  let s := fresh "s" in
  let Hk := fresh "Hk" in
  let E := fresh "E" in
  intros k s Hk E; simpl in Hk;
  repeat (destruct Hk as [<- | Hk];
          [vm_compute in E; injection E as <-; reflexivity|]);
  contradiction.

Ltac solve_present :=
  let k := fresh "k" in
  let H := fresh "H" in
  intros k H; simpl in H;
  repeat (destruct H as [<- | H];
          [eexists; split; [vm_compute; reflexivity | discriminate]|]);
  contradiction.

Ltac solve_city :=
  eexists; split; [vm_compute; reflexivity | simpl; tauto].

Ltac solve_parses := repeat split; vm_compute; reflexivity.

Ltac solve_in_range :=
  let H := fresh "H" in
  intros [H | [H | [H | H]]]; vm_compute in H;
  first [discriminate | now apply H].

Ltac solve_validated :=
  split; [solve_present|]; split; [solve_city|];
  split; [solve_parses | solve_in_range].

(** ** The claims *)

(** C1. For every request that passes validation, the handler calls the
    encoder on the location and, when the encoder returns, calls
    [model.predict] once, on a row of exactly ten columns in the order
    Bedrooms, Bathrooms, Floor_no, Floor_area, Location (the encoder's
    value for the location), City_chattogram, City_cumilla, City_dhaka,
    City_gazipur, City_narayanganj-city, with the parsed numbers and with
    city entries that are 0 or 1 and sum to 1 (the 1 is at the city of
    the request).  When the encoder raises, the model is not called.  No
    other row is handed to the model, and a prediction page is only
    rendered after such a call. *)
Theorem C1_feature_vector_schema {St : Type}
    (enc : frame -> St -> outcome Py.float * St)
    (mdl : frame -> St -> outcome (list Py.float) * St)
    (to_ascii : string -> string)
    (f : form) (nd : NumericData) (w : world St) :
  validated to_ascii f nd ->
  exists c loc new,
    form_get "City" f = Some c /\ form_get "Location" f = Some loc
    /\ calls (snd (predict enc mdl to_ascii f w)) = calls w ++ new
    /\ (forall v,
          fst (enc [("Location", CStr loc)] (collab w)) = Returns v ->
          exists row,
            new = [EncoderTransform [("Location", CStr loc)]; ModelPredict row]
            /\ row = schema_row nd v (one_hot c)
            /\ in_schema nd v row
            /\ List.length row = 10%nat /\ Dict.keys row = column_order)
    /\ (forall e,
          fst (enc [("Location", CStr loc)] (collab w)) = Raises e ->
          new = [EncoderTransform [("Location", CStr loc)]])
    /\ (forall row, In (ModelPredict row) new ->
          List.length row = 10%nat /\ Dict.keys row = column_order
          /\ exists v,
               fst (enc [("Location", CStr loc)] (collab w)) = Returns v
               /\ in_schema nd v row)
    /\ (forall p, fst (predict enc mdl to_ascii f w) = prediction_page p ->
          exists row, In (ModelPredict row) new).
Proof.
  intros V.
  destruct (validated_fields to_ascii f nd V) as (c & loc & Ec & Hc & El & _).
  rewrite (predict_validated_run St enc mdl to_ascii f nd c loc w V Ec El).
  rewrite validated_run_calls. exists c, loc. eexists.
  split; [exact Ec|]. split; [exact El|]. split; [reflexivity|].
  split; [|split; [|split]].
  - intros v ->. exists (schema_row nd v (one_hot c)).
    split; [reflexivity|]. split; [reflexivity|].
    split; [now apply schema_row_in_schema|]. split; reflexivity.
  - intros e ->. reflexivity.
  - intros row [H | H]; [discriminate|].
    destruct (fst (enc _ _)) as [v|e] eqn:E; [|contradiction].
    destruct H as [[= <-] | []].
    split; [reflexivity|]. split; [reflexivity|].
    exists v. split; [reflexivity|]. now apply schema_row_in_schema.
  - intros p (v & p0 & rest & E & _)%validated_run_page.
    rewrite E. eexists. right. left. reflexivity.
Qed.

Lemma C1_feature_vector_schema_witness :
  validated Stub.to_ascii Stub.request Stub.numeric
  /\ calls (snd (predict (Stub.encoder (float_of_Z 7))
                   (Stub.model (float_of_Z 4500000)) Stub.to_ascii
                   Stub.request (Stub.start tt)))
     = [EncoderTransform [("Location", CStr "Mirpur")];
        ModelPredict
          [("Bedrooms", CInt 3); ("Bathrooms", CInt 2); ("Floor_no", CInt 4);
           ("Floor_area", CFloat (Py.round_decimal false 12005 (-1)));
           ("Location", CFloat (float_of_Z 7));
           ("City_chattogram", CInt 0); ("City_cumilla", CInt 0);
           ("City_dhaka", CInt 1); ("City_gazipur", CInt 0);
           ("City_narayanganj-city", CInt 0)]].
Proof.
  assert (V : validated Stub.to_ascii Stub.request Stub.numeric)
    by solve_validated.
  split; [exact V|].
  destruct (C1_feature_vector_schema (Stub.encoder (float_of_Z 7))
              (Stub.model (float_of_Z 4500000)) Stub.to_ascii Stub.request
              Stub.numeric (Stub.start tt) V)
    as (c & loc & new & Ec & El & Ecalls & Hret & _).
  injection Ec as <-. injection El as <-.
  destruct (Hret (float_of_Z 7) eq_refl) as (row & -> & -> & _).
  rewrite Ecalls. reflexivity.
Defined.

(** C5. For each of the five valid cities, at index [i] of the enumeration
    chattogram, cumilla, dhaka, gazipur, narayanganj-city, the city
    encoding has the five cities as its keys, in that order, and five
    values, all 0 except a 1 at index [i]. *)
Theorem C5_city_one_hot (d : Data) (i : nat) (c : string) :
  nth_error VALID_CITIES i = Some c ->
  city d = Some c ->
  Dict.keys (city_features d) = VALID_CITIES
  /\ List.length (Dict.values (city_features d)) = 5%nat
  /\ forall j, (j < 5)%nat ->
       nth_error (Dict.values (city_features d)) j
       = Some (CInt (if (j =? i)%nat then 1 else 0)).
Proof.
  intros Hi Hc. rewrite city_features_eq, Hc.
  split; [reflexivity|]. split; [reflexivity|].
  intros j Hj.
  do 5 (destruct i as [|i]; [injection Hi as <-;
        do 5 (destruct j as [|j]; [reflexivity|]); lia|]).
  destruct i; discriminate.
Qed.

Lemma C5_city_one_hot_witness :
  nth_error VALID_CITIES 2 = Some "City_dhaka"
  /\ city (data Stub.request) = Some "City_dhaka"
  /\ Dict.keys (city_features (data Stub.request)) = VALID_CITIES
  /\ List.length (Dict.values (city_features (data Stub.request))) = 5%nat
  /\ forall j, (j < 5)%nat ->
       nth_error (Dict.values (city_features (data Stub.request))) j
       = Some (CInt (if (j =? 2)%nat then 1 else 0)).
Proof.
  split; [reflexivity|]. split; [reflexivity|].
  apply (C5_city_one_hot (data Stub.request) 2 "City_dhaka"); reflexivity.
Defined.

(** C6. For every request in which one of the six fields is absent or
    empty, the handler answers with the missing-field message and leaves
    the world as it was: no collaborator is called, so the number of calls
    to [model.predict] stays what it was. *)
Theorem C6_missing_field_no_model_call {St : Type}
    (enc : frame -> St -> outcome Py.float * St)
    (mdl : frame -> St -> outcome (list Py.float) * St)
    (to_ascii : string -> string)
    (f : form) (w : world St) :
  missing_field f ->
  predict enc mdl to_ascii f w = (home_page MSG_MISSING, w)
  /\ model_calls (calls (snd (predict enc mdl to_ascii f w))) = model_calls (calls w).
Proof.
  intros M. rewrite (predict_missing St enc mdl to_ascii f w M). split; reflexivity.
Qed.

Lemma C6_missing_field_no_model_call_witness :
  missing_field (Stub.request_without "Location")
  /\ predict (Stub.encoder (float_of_Z 7)) (Stub.model (float_of_Z 4500000))
       Stub.to_ascii
       (Stub.request_without "Location") (Stub.start tt)
     = (home_page "Please fill out all fields.", Stub.start tt)
  /\ model_calls
       (calls (snd (predict (Stub.encoder (float_of_Z 7))
                      (Stub.model (float_of_Z 4500000)) Stub.to_ascii
                      (Stub.request_without "Location") (Stub.start tt))))
     = 0%nat.
Proof.
  assert (M : missing_field (Stub.request_without "Location")).
  { exists "Location". split; [simpl; tauto | left; reflexivity]. }
  split; [exact M|].
  apply (C6_missing_field_no_model_call (Stub.encoder (float_of_Z 7))
           (Stub.model (float_of_Z 4500000)) Stub.to_ascii
           (Stub.request_without "Location") (Stub.start tt) M).
Defined.

(** C3. The checks are made in the order presence, city, numeric parse,
    numeric range, and the first one that fails gives the message: a
    missing field whatever the rest; with all fields present, an unknown
    city whatever the numeric fields; with a known city too, a field that
    does not parse; with fields that parse, a value that is not positive.
    A request that passes the four checks gets none of the four
    messages. *)
Theorem C3_order_of_checks {St : Type}
    (enc : frame -> St -> outcome Py.float * St)
    (mdl : frame -> St -> outcome (list Py.float) * St)
    (to_ascii : string -> string)
    (f : form) (w : world St) :
  (missing_field f -> predict enc mdl to_ascii f w = (home_page MSG_MISSING, w))
  /\ (all_present f -> ~ city_valid f ->
      predict enc mdl to_ascii f w = (home_page MSG_CITY, w))
  /\ (all_present f -> city_valid f -> unparseable to_ascii f ->
      predict enc mdl to_ascii f w = (home_page MSG_NUMBER, w))
  /\ (forall nd, all_present f -> city_valid f -> parses_to to_ascii f nd ->
      out_of_range nd -> predict enc mdl to_ascii f w = (home_page MSG_RANGE, w))
  /\ (forall nd, validated to_ascii f nd ->
      forall m, In m [MSG_MISSING; MSG_CITY; MSG_NUMBER; MSG_RANGE] ->
      fst (predict enc mdl to_ascii f w) <> home_page m).
Proof.
  split; [apply predict_missing|].
  split; [apply predict_city|].
  split; [apply predict_number|].
  split; [intros nd; apply predict_range|].
  intros nd V m Hm.
  destruct (validated_fields to_ascii f nd V) as (c & loc & Ec & Hc & El & _).
  rewrite (predict_validated_run St enc mdl to_ascii f nd c loc w V Ec El).
  unfold validated_run. cbv zeta.
  assert (D : home_page MSG_ERROR <> home_page m).
  { simpl in Hm. intros [= E].
    destruct Hm as [<- | [<- | [<- | [<- | []]]]]; discriminate. }
  destruct (fst (enc _ _)) as [v|e]; [|exact D].
  destruct (fst (mdl _ _)) as [[|p0 rest]|e]; try exact D.
  discriminate.
Qed.

Lemma C3_order_of_checks_witness :
  all_present (Stub.request_with "City" "City_sylhet")
  /\ ~ city_valid (Stub.request_with "City" "City_sylhet")
  /\ predict (Stub.encoder (float_of_Z 7)) (Stub.model (float_of_Z 4500000))
       Stub.to_ascii
       (Stub.request_with "City" "City_sylhet") (Stub.start tt)
     = (home_page "Invalid city selected.", Stub.start tt).
Proof.
  assert (P : all_present (Stub.request_with "City" "City_sylhet"))
    by solve_present.
  assert (C : ~ city_valid (Stub.request_with "City" "City_sylhet")).
  { intros (c & E & H). vm_compute in E. injection E as <-.
    simpl in H. repeat (destruct H as [H | H]; [discriminate|]).
    contradiction. }
  split; [exact P|]. split; [exact C|].
  exact (proj1 (proj2 (C3_order_of_checks (Stub.encoder (float_of_Z 7))
                         (Stub.model (float_of_Z 4500000)) Stub.to_ascii
                         (Stub.request_with "City" "City_sylhet")
                         (Stub.start tt))) P C).
Defined.

(** C4. For every request whose six fields are present, whose city is
    valid and whose numeric fields all parse, a parsed value [<= 0] gives
    the out-of-range message, which is not the invalid-number message. *)
Theorem C4_not_positive_is_out_of_range {St : Type}
    (enc : frame -> St -> outcome Py.float * St)
    (mdl : frame -> St -> outcome (list Py.float) * St)
    (to_ascii : string -> string)
    (f : form) (nd : NumericData) (w : world St) :
  all_present f -> city_valid f -> parses_to to_ascii f nd -> out_of_range nd ->
  predict enc mdl to_ascii f w = (home_page MSG_RANGE, w)
  /\ fst (predict enc mdl to_ascii f w) <> home_page MSG_NUMBER.
Proof.
  intros P C N R. rewrite (predict_range St enc mdl to_ascii f nd w P C N R).
  split; [reflexivity | discriminate].
Qed.

Lemma C4_not_positive_is_out_of_range_witness :
  all_present (Stub.request_with "Bedrooms" "-1")
  /\ city_valid (Stub.request_with "Bedrooms" "-1")
  /\ parses_to Stub.to_ascii (Stub.request_with "Bedrooms" "-1")
       {| num_bedrooms := -1; num_bathrooms := 2;
          num_floor_area := Py.round_decimal false 12005 (-1);
          num_floor_no := 4 |}
  /\ predict (Stub.encoder (float_of_Z 7)) (Stub.model (float_of_Z 4500000))
       Stub.to_ascii
       (Stub.request_with "Bedrooms" "-1") (Stub.start tt)
     = (home_page "All numeric values must be greater than 0.", Stub.start tt)
  /\ fst (predict (Stub.encoder (float_of_Z 7)) (Stub.model (float_of_Z 4500000))
            Stub.to_ascii
            (Stub.request_with "Bedrooms" "-1") (Stub.start tt))
     <> home_page "Invalid numeric input. Please check your numbers.".
Proof.
  assert (P : all_present (Stub.request_with "Bedrooms" "-1")) by solve_present.
  assert (C : city_valid (Stub.request_with "Bedrooms" "-1")) by solve_city.
  assert (N : parses_to Stub.to_ascii (Stub.request_with "Bedrooms" "-1")
                {| num_bedrooms := -1; num_bathrooms := 2;
                   num_floor_area := Py.round_decimal false 12005 (-1);
                   num_floor_no := 4 |}) by solve_parses.
  split; [exact P|]. split; [exact C|]. split; [exact N|].
  apply (C4_not_positive_is_out_of_range (Stub.encoder (float_of_Z 7))
           (Stub.model (float_of_Z 4500000)) Stub.to_ascii
           (Stub.request_with "Bedrooms" "-1") _ (Stub.start tt) P C N).
  left. simpl. lia.
Defined.

(** C10. The presence check accepts any non-empty string.  When every
    field is a non-empty string, white space included, the answer is not
    the missing-field message; and when the other checks pass as well, the
    location, white space or not, is what the encoder is called with. *)
Theorem C10_whitespace_location_is_present {St : Type}
    (enc : frame -> St -> outcome Py.float * St)
    (mdl : frame -> St -> outcome (list Py.float) * St)
    (to_ascii : string -> string)
    (f : form) (w : world St) :
  all_present f ->
  fst (predict enc mdl to_ascii f w) <> home_page MSG_MISSING
  /\ forall nd loc,
       validated to_ascii f nd -> form_get "Location" f = Some loc ->
       exists rest,
         calls (snd (predict enc mdl to_ascii f w))
         = calls w ++ EncoderTransform [("Location", CStr loc)] :: rest.
Proof.
  intros P. split.
  - destruct (predict_cases St enc mdl to_ascii f w)
      as [(M & _) | [(_ & _ & E) | [(_ & _ & _ & E) | [(nd & _ & _ & _ & _ & E)
         | (nd & c & loc & _ & _ & _ & _ & E)]]]].
    + now apply present_not_missing in P.
    + rewrite E. discriminate.
    + rewrite E. discriminate.
    + rewrite E. discriminate.
    + rewrite E. unfold validated_run. cbv zeta.
      destruct (fst (enc _ _)) as [v|e]; [|discriminate].
      destruct (fst (mdl _ _)) as [[|p0 rest]|e]; discriminate.
  - intros nd loc V El.
    destruct (validated_fields to_ascii f nd V) as (c & loc' & Ec & _ & El' & _).
    rewrite (predict_validated_run St enc mdl to_ascii f nd c loc w V Ec El).
    rewrite validated_run_calls. eexists. reflexivity.
Qed.

Lemma C10_whitespace_location_is_present_witness :
  all_present (Stub.request_with "Location" " ")
  /\ fst (predict (Stub.encoder (float_of_Z 7)) (Stub.model (float_of_Z 4500000))
            Stub.to_ascii
            (Stub.request_with "Location" " ") (Stub.start tt))
     <> home_page "Please fill out all fields."
  /\ exists rest,
       calls (snd (predict (Stub.encoder (float_of_Z 7))
                     (Stub.model (float_of_Z 4500000)) Stub.to_ascii
                     (Stub.request_with "Location" " ") (Stub.start tt)))
       = calls (Stub.start tt) ++ EncoderTransform [("Location", CStr " ")] :: rest.
Proof.
  assert (P : all_present (Stub.request_with "Location" " ")) by solve_present.
  assert (V : validated Stub.to_ascii (Stub.request_with "Location" " ") Stub.numeric)
    by solve_validated.
  split; [exact P|].
  destruct (C10_whitespace_location_is_present (Stub.encoder (float_of_Z 7))
              (Stub.model (float_of_Z 4500000)) Stub.to_ascii
              (Stub.request_with "Location" " ") (Stub.start tt) P) as [H1 H2].
  split; [exact H1|].
  exact (H2 Stub.numeric " " V eq_refl).
Defined.

(** C7. The scenario: for City_dhaka, Mirpur, 3 bedrooms, 2 bathrooms,
    1200.5 of floor area and floor 4, with an encoder that gives 7.0 and a
    model that gives 4500000.0, the handler renders the prediction page
    with the price "4,500,000.00" and the city "Dhaka".  On every
    prediction page, the price is the [',.2f'] format of the first number
    the model returned, and of nothing else. *)
Theorem C7_scenario :
  (forall to_ascii : string -> string,
   ascii_preserving to_ascii ->
   predict (Stub.encoder (float_of_Z 7)) (Stub.model (float_of_Z 4500000))
     to_ascii Stub.request (Stub.start tt)
   = (prediction_page {|
       page_city := "Dhaka";
       page_location := Some "Mirpur";
       page_bedrooms := 3;
       page_bathrooms := 2;
       page_floor_area := S754_finite false 5279854836580352 (-42);
       page_floor_no := 4;
       predicted_price := "4,500,000.00"
     |},
     {| collab := tt;
        calls :=
          [EncoderTransform [("Location", CStr "Mirpur")];
           ModelPredict
             [("Bedrooms", CInt 3); ("Bathrooms", CInt 2);
              ("Floor_no", CInt 4);
              ("Floor_area", CFloat (S754_finite false 5279854836580352 (-42)));
              ("Location", CFloat (float_of_Z 7));
              ("City_chattogram", CInt 0); ("City_cumilla", CInt 0);
              ("City_dhaka", CInt 1); ("City_gazipur", CInt 0);
              ("City_narayanganj-city", CInt 0)]] |}))
  /\ forall (St : Type) (enc : frame -> St -> outcome Py.float * St)
       (mdl : frame -> St -> outcome (list Py.float) * St)
       (to_ascii : string -> string)
       (f : form) (w : world St) (p : Prediction),
       fst (predict enc mdl to_ascii f w) = prediction_page p ->
       exists row s p0 rest,
         fst (mdl row s) = Returns (p0 :: rest)
         /\ predicted_price p = Py.format_2f p0.
Proof.
  split.
  { intros to_ascii A.
    rewrite (predict_ascii _ _ to_ascii Stub.request (Stub.start tt) A)
      by solve_ascii_numbers.
    vm_compute. reflexivity. }
  intros St enc mdl to_ascii f w p H.
  destruct (predict_cases St enc mdl to_ascii f w)
    as [(_ & E) | [(_ & _ & E) | [(_ & _ & _ & E) | [(nd & _ & _ & _ & _ & E)
       | (nd & c & loc & _ & _ & _ & _ & E)]]]];
    rewrite E in H; try discriminate.
  apply validated_run_page in H. destruct H as (v & p0 & rest & _ & Em & ->).
  exists (schema_row nd v (one_hot c)), (collab (after_encoder enc loc w)), p0, rest.
  split; [assumption | reflexivity].
Qed.

Lemma C7_scenario_witness :
  exists row s p0 rest,
    fst (Stub.model (float_of_Z 4500000) row s) = Returns (p0 :: rest)
    /\ "4,500,000.00" = Py.format_2f p0.
Proof.
  exact (proj2 C7_scenario unit (Stub.encoder (float_of_Z 7))
           (Stub.model (float_of_Z 4500000)) Stub.to_ascii Stub.request
           (Stub.start tt) _
           (f_equal fst (proj1 C7_scenario Stub.to_ascii
                           (fun s _ => eq_refl)))).
Defined.

(** C9. With an encoder and a model whose results depend on their
    argument only, the answer of the handler depends on the request only:
    whatever the state the collaborators are in, and so also when the
    same request is run a second time, the rendered answer (message, or
    page with its formatted price) is the same. *)
Theorem C9_deterministic {St : Type}
    (enc : frame -> St -> outcome Py.float * St)
    (mdl : frame -> St -> outcome (list Py.float) * St)
    (to_ascii : string -> string)
    (f : form) (w w' : world St) :
  deterministic enc -> deterministic mdl ->
  fst (predict enc mdl to_ascii f w') = fst (predict enc mdl to_ascii f w)
  /\ fst (predict enc mdl to_ascii f (snd (predict enc mdl to_ascii f w)))
     = fst (predict enc mdl to_ascii f w).
Proof.
  intros De Dm.
  assert (G : forall w1 w2 : world St,
             fst (predict enc mdl to_ascii f w1) = fst (predict enc mdl to_ascii f w2)).
  { intros w1 w2.
    destruct (predict_cases St enc mdl to_ascii f w1)
      as [(M & E) | [(P & C & E) | [(P & C & U & E) | [(nd & P & C & N & R & E)
         | (nd & c & loc & V & Ec & _ & El & E)]]]]; rewrite E.
    - now rewrite (predict_missing St enc mdl to_ascii f w2 M).
    - now rewrite (predict_city St enc mdl to_ascii f w2 P C).
    - now rewrite (predict_number St enc mdl to_ascii f w2 P C U).
    - now rewrite (predict_range St enc mdl to_ascii f nd w2 P C N R).
    - rewrite (predict_validated_run St enc mdl to_ascii f nd c loc w2 V Ec El).
      unfold validated_run. cbv zeta.
      rewrite (De _ (collab w1) (collab w2)).
      destruct (fst (enc _ (collab w2))) as [v|e]; [|reflexivity].
      rewrite (Dm _ (collab (after_encoder enc loc w1))
                  (collab (after_encoder enc loc w2))).
      destruct (fst (mdl _ _)) as [[|p0 rest]|e]; reflexivity. }
  split; apply G.
Qed.

Lemma C9_deterministic_witness :
  deterministic (Stub.counting_encoder (float_of_Z 7))
  /\ deterministic (Stub.counting_model (float_of_Z 4500000))
  /\ fst (predict (Stub.counting_encoder (float_of_Z 7))
            (Stub.counting_model (float_of_Z 4500000)) Stub.to_ascii Stub.request
            (snd (predict (Stub.counting_encoder (float_of_Z 7))
                    (Stub.counting_model (float_of_Z 4500000)) Stub.to_ascii Stub.request
                    (Stub.start 0%nat))))
     = fst (predict (Stub.counting_encoder (float_of_Z 7))
              (Stub.counting_model (float_of_Z 4500000)) Stub.to_ascii Stub.request
              (Stub.start 0%nat)).
Proof.
  assert (De : deterministic (Stub.counting_encoder (float_of_Z 7)))
    by (intros a s s'; reflexivity).
  assert (Dm : deterministic (Stub.counting_model (float_of_Z 4500000)))
    by (intros a s s'; reflexivity).
  split; [exact De|]. split; [exact Dm|].
  exact (proj2 (C9_deterministic (Stub.counting_encoder (float_of_Z 7))
                  (Stub.counting_model (float_of_Z 4500000)) Stub.to_ascii Stub.request
                  (Stub.start 0%nat) (Stub.start 0%nat) De Dm)).
Defined.

(** C8, as stated, fails: a failure of the encoder, a failure of the model
    and an empty prediction are all answered with the same general
    message.  (The request is ASCII, and so left as it is by [int] and
    [float].) *)
Lemma C8_counterexample :
  fst (predict Stub.failing_encoder (Stub.model (float_of_Z 4500000))
         Stub.to_ascii
         Stub.request (Stub.start tt))
  = home_page "An error occurred during prediction. Please try again."
  /\ fst (predict (Stub.encoder (float_of_Z 7)) Stub.failing_model Stub.to_ascii
            Stub.request (Stub.start tt))
     = home_page "An error occurred during prediction. Please try again."
  /\ fst (predict (Stub.encoder (float_of_Z 7)) Stub.empty_model Stub.to_ascii
            Stub.request (Stub.start tt))
     = home_page "An error occurred during prediction. Please try again."
  /\ fst (predict Stub.failing_encoder (Stub.model (float_of_Z 4500000))
            Stub.to_ascii
            Stub.request (Stub.start tt))
     = fst (predict (Stub.encoder (float_of_Z 7)) Stub.failing_model Stub.to_ascii
              Stub.request (Stub.start tt)).
Proof. repeat split; vm_compute; reflexivity. Qed.

(** C8, amended.  The handler has five messages, all different.  Each of
    the four validation failures has a message of its own; for a validated
    request, an encoder that raises, a model that raises and a model that
    returns an empty array all get the fifth, general message; there is
    no message for a schema error.  No failure is swallowed: every answer
    is a prediction page or one of the five messages, and a prediction
    page is rendered only for a validated request whose encoder and model
    both returned. *)
Theorem C8_failure_messages {St : Type}
    (enc : frame -> St -> outcome Py.float * St)
    (mdl : frame -> St -> outcome (list Py.float) * St)
    (to_ascii : string -> string)
    (f : form) (w : world St) :
  NoDup messages
  /\ (missing_field f -> fst (predict enc mdl to_ascii f w) = home_page MSG_MISSING)
  /\ (all_present f -> ~ city_valid f ->
      fst (predict enc mdl to_ascii f w) = home_page MSG_CITY)
  /\ (all_present f -> city_valid f -> unparseable to_ascii f ->
      fst (predict enc mdl to_ascii f w) = home_page MSG_NUMBER)
  /\ (forall nd, all_present f -> city_valid f -> parses_to to_ascii f nd ->
      out_of_range nd -> fst (predict enc mdl to_ascii f w) = home_page MSG_RANGE)
  /\ (forall nd c loc,
        validated to_ascii f nd ->
        form_get "City" f = Some c -> form_get "Location" f = Some loc ->
        (forall e, fst (enc [("Location", CStr loc)] (collab w)) = Raises e ->
                   fst (predict enc mdl to_ascii f w) = home_page MSG_ERROR)
        /\ (forall v, fst (enc [("Location", CStr loc)] (collab w)) = Returns v ->
                      forall e,
                        fst (mdl (schema_row nd v (one_hot c))
                               (collab (after_encoder enc loc w))) = Raises e
                        \/ fst (mdl (schema_row nd v (one_hot c))
                                  (collab (after_encoder enc loc w))) = Returns [] ->
                        fst (predict enc mdl to_ascii f w) = home_page MSG_ERROR))
  /\ ((exists m, In m messages /\ fst (predict enc mdl to_ascii f w) = home_page m)
      \/ (exists nd c loc v p0 rest,
             validated to_ascii f nd
             /\ form_get "City" f = Some c /\ form_get "Location" f = Some loc
             /\ fst (enc [("Location", CStr loc)] (collab w)) = Returns v
             /\ fst (mdl (schema_row nd v (one_hot c))
                       (collab (after_encoder enc loc w))) = Returns (p0 :: rest)
             /\ fst (predict enc mdl to_ascii f w) = prediction_page (page_of f nd c p0))).
Proof.
  split.
  { unfold messages. repeat constructor; simpl; intros H;
      repeat (destruct H as [H | H]; [discriminate|]); contradiction. }
  split; [intros M; now rewrite (predict_missing St enc mdl to_ascii f w M)|].
  split; [intros P C; now rewrite (predict_city St enc mdl to_ascii f w P C)|].
  split; [intros P C U; now rewrite (predict_number St enc mdl to_ascii f w P C U)|].
  split; [intros nd P C N R; now rewrite (predict_range St enc mdl to_ascii f nd w P C N R)|].
  split.
  - intros nd c loc V Ec El.
    rewrite (predict_validated_run St enc mdl to_ascii f nd c loc w V Ec El).
    unfold validated_run. cbv zeta. split.
    + intros e ->. reflexivity.
    + intros v -> e [-> | ->]; reflexivity.
  - destruct (predict_cases St enc mdl to_ascii f w)
      as [(_ & E) | [(_ & _ & E) | [(_ & _ & _ & E) | [(nd & _ & _ & _ & _ & E)
         | (nd & c & loc & V & Ec & _ & El & E)]]]].
    1-4: left; rewrite E; eexists; split; [|reflexivity]; simpl; tauto.
    rewrite E. unfold validated_run. cbv zeta.
    destruct (fst (enc _ _)) as [v|e] eqn:Ee.
    2:{ left. exists MSG_ERROR. split; [simpl; tauto | reflexivity]. }
    destruct (fst (mdl _ _)) as [[|p0 rest]|e] eqn:Em.
    1,3: left; exists MSG_ERROR; split; [simpl; tauto | reflexivity].
    right. exists nd, c, loc, v, p0, rest. auto 10.
Qed.

Lemma C8_failure_messages_witness :
  validated Stub.to_ascii Stub.request Stub.numeric
  /\ fst (Stub.failing_encoder [("Location", CStr "Mirpur")]
            (collab (Stub.start tt))) = Raises (OtherError "encoder")
  /\ fst (predict Stub.failing_encoder (Stub.model (float_of_Z 4500000))
            Stub.to_ascii
            Stub.request (Stub.start tt))
     = home_page "An error occurred during prediction. Please try again.".
Proof.
  assert (V : validated Stub.to_ascii Stub.request Stub.numeric) by solve_validated.
  split; [exact V|]. split; [reflexivity|].
  destruct (C8_failure_messages Stub.failing_encoder
              (Stub.model (float_of_Z 4500000)) Stub.to_ascii Stub.request (Stub.start tt))
    as (_ & _ & _ & _ & _ & H & _).
  exact (proj1 (H Stub.numeric "City_dhaka" "Mirpur" V eq_refl eq_refl)
           (OtherError "encoder") eq_refl).
Defined.

(** C2, as stated, fails: the assembly compares no length.  A dictionary
    of eleven fields is assembled without complaint and the model is
    called; one of nine fields, without [Floor_no], makes the selection
    of the columns raise [KeyError], which the handler answers with the
    general message, the one it also gives when the model fails.  (The
    request is ASCII, and so left as it is by [int] and [float].) *)
Lemma C2_counterexample :
  List.length Stub.input_extra = 11%nat
  /\ (exists row, assemble Stub.input_extra = Returns row)
  /\ model_calls
       (calls (snd (predict_from (Stub.encoder (float_of_Z 7))
                      (Stub.model (float_of_Z 4500000)) (data Stub.request)
                      Stub.numeric Stub.input_extra (Stub.start tt)))) = 1%nat
  /\ List.length Stub.input_short = 9%nat
  /\ assemble Stub.input_short = Raises (KeyError "Floor_no")
  /\ on_exception
       (predict_from (Stub.encoder (float_of_Z 7))
          (Stub.model (float_of_Z 4500000)) (data Stub.request)
          Stub.numeric Stub.input_short (Stub.start tt))
     = (home_page "An error occurred during prediction. Please try again.",
        Stub.start tt)
  /\ fst (predict (Stub.encoder (float_of_Z 7)) Stub.failing_model Stub.to_ascii
            Stub.request (Stub.start tt))
     = home_page "An error occurred during prediction. Please try again.".
Proof.
  split; [reflexivity|].
  split; [eexists; vm_compute; reflexivity|].
  repeat split; vm_compute; reflexivity.
Qed.

(** C2, amended.  The assembly makes no check of its own and the handler
    has no schema-error answer.  The row is made by selecting the ten
    names of [column_order], so that whatever the assembly returns has
    exactly these ten columns in this order; for a validated request it
    always returns; and were a name absent, the handler would answer with
    the general message, having called neither the encoder nor the
    model. *)
Theorem C2_assembly_by_selection {St : Type}
    (enc : frame -> St -> outcome Py.float * St)
    (mdl : frame -> St -> outcome (list Py.float) * St)
    (to_ascii : string -> string) :
  (forall input row,
      assemble input = Returns row ->
      Dict.keys row = column_order /\ List.length row = 10%nat)
  /\ (forall f nd,
        validated to_ascii f nd ->
        List.length (input_data (data f) nd) = 10%nat
        /\ exists row, assemble (input_data (data f) nd) = Returns row)
  /\ (forall d nd input e (w : world St),
        assemble input = Raises e ->
        on_exception (predict_from enc mdl d nd input w)
        = (home_page MSG_ERROR, w))
  /\ (forall f (w : world St) m,
        fst (predict enc mdl to_ascii f w) = home_page m -> In m messages).
Proof.
  split; [exact assemble_columns|]. split.
  - intros f nd V. split; [apply input_data_length|].
    destruct (validated_fields to_ascii f nd V) as (c & loc & Ec & _ & El & _).
    eexists. apply (assemble_input_data (data f) nd c loc); assumption.
  - split.
    + intros d nd input e w H. unfold predict_from, bind, lift.
      rewrite H. reflexivity.
    + intros f w m H.
      destruct (predict_cases St enc mdl to_ascii f w)
        as [(_ & E) | [(_ & _ & E) | [(_ & _ & _ & E)
           | [(nd & _ & _ & _ & _ & E) | (nd & c & loc & _ & _ & _ & _ & E)]]]];
        rewrite E in H.
      1-4: injection H as <-; simpl; tauto.
      unfold validated_run in H. cbv zeta in H.
      destruct (fst (enc _ _)) as [v|e]; [|injection H as <-; simpl; tauto].
      destruct (fst (mdl _ _)) as [[|p0 rest]|e];
        try (injection H as <-; simpl; tauto).
      discriminate.
Qed.

Lemma C2_assembly_by_selection_witness :
  assemble Stub.input_short = Raises (KeyError "Floor_no")
  /\ on_exception
       (predict_from (Stub.encoder (float_of_Z 7))
          (Stub.model (float_of_Z 4500000)) (data Stub.request)
          Stub.numeric Stub.input_short (Stub.start tt))
     = (home_page "An error occurred during prediction. Please try again.",
        Stub.start tt).
Proof.
  split; [reflexivity|].
  exact (proj1 (proj2 (proj2 (C2_assembly_by_selection
                                (Stub.encoder (float_of_Z 7))
                                (Stub.model (float_of_Z 4500000))
                                Stub.to_ascii)))
           (data Stub.request) Stub.numeric Stub.input_short
           (KeyError "Floor_no") (Stub.start tt) eq_refl).
Defined.

(** ** Further properties of the handler *)

Lemma model_calls_app (l l' : list event) :
  model_calls (l ++ l') = (model_calls l + model_calls l')%nat.
Proof. unfold model_calls. now rewrite filter_app, length_app. Qed.

Lemma validation_message_not_general (m : string) :
  In m [MSG_MISSING; MSG_CITY; MSG_NUMBER; MSG_RANGE] -> m <> MSG_ERROR.
Proof.
  simpl. intros [<- | [<- | [<- | [<- | []]]]]; discriminate.
Qed.

(** X1. The handler reads the first value of each of the six fields and
    nothing else of the form: two forms that agree on these give the same
    answer and the same calls. *)
Theorem X1_only_six_fields {St : Type}
    (enc : frame -> St -> outcome Py.float * St)
    (mdl : frame -> St -> outcome (list Py.float) * St)
    (to_ascii : string -> string)
    (f f' : form) (w : world St) :
  (forall k, In k field_names -> form_get k f = form_get k f') ->
  predict enc mdl to_ascii f w = predict enc mdl to_ascii f' w.
Proof.
  intros H. unfold predict, predict_try.
  assert (E : data f = data f').
  { unfold data. f_equal; apply H; simpl; tauto. }
  rewrite E. reflexivity.
Qed.

Lemma X1_only_six_fields_witness :
  (forall k, In k field_names ->
     form_get k Stub.request
     = form_get k (Stub.request ++ [("Garage", "1"); ("City", "City_sylhet")]))
  /\ predict (Stub.encoder (float_of_Z 7)) (Stub.model (float_of_Z 4500000))
       Stub.to_ascii
       Stub.request (Stub.start tt)
     = predict (Stub.encoder (float_of_Z 7)) (Stub.model (float_of_Z 4500000))
         Stub.to_ascii
         (Stub.request ++ [("Garage", "1"); ("City", "City_sylhet")])
         (Stub.start tt).
Proof.
  assert (H : forall k, In k field_names ->
     form_get k Stub.request
     = form_get k (Stub.request ++ [("Garage", "1"); ("City", "City_sylhet")])).
  { intros k Hk. simpl in Hk.
    repeat (destruct Hk as [<- | Hk]; [reflexivity|]). contradiction. }
  split; [exact H|].
  apply (X1_only_six_fields (Stub.encoder (float_of_Z 7))
           (Stub.model (float_of_Z 4500000)) Stub.to_ascii Stub.request _ (Stub.start tt) H).
Defined.

(** X2. The message tells the cause: the missing-field message is only
    given when a field is absent or empty, the city message only when all
    fields are present and the city is unknown, the number message only
    when a numeric field does not parse, the range message only when a
    parsed value is not positive; the general message and the prediction
    page are only given to a request that passed the four checks. *)
Theorem X2_message_tells_cause {St : Type}
    (enc : frame -> St -> outcome Py.float * St)
    (mdl : frame -> St -> outcome (list Py.float) * St)
    (to_ascii : string -> string)
    (f : form) (w : world St) :
  (fst (predict enc mdl to_ascii f w) = home_page MSG_MISSING -> missing_field f)
  /\ (fst (predict enc mdl to_ascii f w) = home_page MSG_CITY ->
      all_present f /\ ~ city_valid f)
  /\ (fst (predict enc mdl to_ascii f w) = home_page MSG_NUMBER ->
      all_present f /\ city_valid f /\ unparseable to_ascii f)
  /\ (fst (predict enc mdl to_ascii f w) = home_page MSG_RANGE ->
      exists nd, all_present f /\ city_valid f /\ parses_to to_ascii f nd
                 /\ out_of_range nd)
  /\ (fst (predict enc mdl to_ascii f w) = home_page MSG_ERROR
      \/ (exists p, fst (predict enc mdl to_ascii f w) = prediction_page p) ->
      exists nd, validated to_ascii f nd).
Proof.
  assert (G : forall nd c loc m,
             In m [MSG_MISSING; MSG_CITY; MSG_NUMBER; MSG_RANGE] ->
             fst (validated_run enc mdl f nd c loc w) <> home_page m).
  { intros nd c loc m Hm%validation_message_not_general.
    unfold validated_run. cbv zeta.
    destruct (fst (enc _ _)) as [v|e]; [|cbn [fst]; congruence].
    destruct (fst (mdl _ _)) as [[|p0 rest]|e]; cbn [fst]; congruence. }
  destruct (predict_cases St enc mdl to_ascii f w)
    as [(M & E) | [(P & C & E) | [(P & C & U & E) | [(nd & P & C & N & R & E)
       | (nd & c & loc & V & _ & _ & _ & E)]]]]; rewrite E; cbn [fst].
  5:{ split; [|split; [|split; [|split]]]; intros H;
        try (exfalso; revert H; apply G; simpl; tauto).
      now exists nd. }
  all: split; [|split; [|split; [|split]]]; intros H;
    try discriminate H; try (destruct H as [H | (p & H)]; discriminate H).
  - assumption.
  - auto.
  - auto.
  - exists nd. auto.
Qed.

Lemma X2_message_tells_cause_witness :
  fst (predict (Stub.encoder (float_of_Z 7)) (Stub.model (float_of_Z 4500000))
         Stub.to_ascii
         (Stub.request_with "Floor_no" "four") (Stub.start tt))
  = home_page MSG_NUMBER
  /\ unparseable Stub.to_ascii (Stub.request_with "Floor_no" "four").
Proof.
  split; [reflexivity|].
  apply (proj1 (proj2 (proj2 (X2_message_tells_cause
           (Stub.encoder (float_of_Z 7)) (Stub.model (float_of_Z 4500000))
           Stub.to_ascii
           (Stub.request_with "Floor_no" "four") (Stub.start tt))))).
  reflexivity.
Defined.

(** X3. The handler calls the encoder at most once and the model at most
    once, in this order and never again: a validation failure leaves the
    world as it was; otherwise the encoder is called on the location
    column, and the model is called, in the state the encoder left, if
    and only if the encoder returned. *)
Theorem X3_calls_of_a_request {St : Type}
    (enc : frame -> St -> outcome Py.float * St)
    (mdl : frame -> St -> outcome (list Py.float) * St)
    (to_ascii : string -> string)
    (f : form) (w : world St) :
  ((exists m, In m [MSG_MISSING; MSG_CITY; MSG_NUMBER; MSG_RANGE]
              /\ predict enc mdl to_ascii f w = (home_page m, w))
   \/ (exists loc e,
          form_get "Location" f = Some loc
          /\ fst (enc [("Location", CStr loc)] (collab w)) = Raises e
          /\ snd (predict enc mdl to_ascii f w) = after_encoder enc loc w)
   \/ (exists loc v row,
          form_get "Location" f = Some loc
          /\ fst (enc [("Location", CStr loc)] (collab w)) = Returns v
          /\ snd (predict enc mdl to_ascii f w)
             = after_model mdl row (after_encoder enc loc w)))
  /\ (model_calls (calls (snd (predict enc mdl to_ascii f w)))
      <= model_calls (calls w) + 1)%nat.
Proof.
  destruct (predict_cases St enc mdl to_ascii f w)
    as [(M & E) | [(P & C & E) | [(P & C & U & E) | [(nd & P & C & N & R & E)
       | (nd & c & loc & V & _ & _ & El & E)]]]]; rewrite E.
  1-4: split; [left; eexists; split; [|reflexivity]; simpl; tauto
              | cbn [snd]; lia].
  unfold validated_run. cbv zeta.
  destruct (fst (enc _ _)) as [v|e] eqn:Ee.
  - assert (S2 : snd (match fst (mdl (schema_row nd v (one_hot c))
                                  (collab (after_encoder enc loc w))) with
                      | Returns [] =>
                          (home_page MSG_ERROR,
                           after_model mdl (schema_row nd v (one_hot c))
                             (after_encoder enc loc w))
                      | Returns (p0 :: _) =>
                          (prediction_page (page_of f nd c p0),
                           after_model mdl (schema_row nd v (one_hot c))
                             (after_encoder enc loc w))
                      | Raises _ =>
                          (home_page MSG_ERROR,
                           after_model mdl (schema_row nd v (one_hot c))
                             (after_encoder enc loc w))
                      end)
                 = after_model mdl (schema_row nd v (one_hot c))
                     (after_encoder enc loc w)).
    { destruct (fst (mdl _ _)) as [[|p0 rest]|e]; reflexivity. }
    rewrite S2. split.
    + right. right. exists loc, v, (schema_row nd v (one_hot c)). auto.
    + cbn [after_model after_encoder calls].
      rewrite !model_calls_app. cbn. lia.
  - split.
    + right. left. exists loc, e. auto.
    + cbn [snd after_encoder calls]. rewrite model_calls_app. cbn. lia.
Qed.

(** X4. A prediction page is rendered exactly when the request passes the
    four checks, the encoder returns and the model returns a non-empty
    array.  The page then shows the name of the city (the identifier
    without [City_], in title case: one of the five names), the submitted
    location unchanged, the parsed numbers, and the first prediction in
    [',.2f'] format. *)
Theorem X4_prediction_page {St : Type}
    (enc : frame -> St -> outcome Py.float * St)
    (mdl : frame -> St -> outcome (list Py.float) * St)
    (to_ascii : string -> string)
    (f : form) (w : world St) (p : Prediction) :
  fst (predict enc mdl to_ascii f w) = prediction_page p
  <-> exists nd i c loc v p0 rest,
        validated to_ascii f nd
        /\ nth_error VALID_CITIES i = Some c
        /\ form_get "City" f = Some c /\ form_get "Location" f = Some loc
        /\ fst (enc [("Location", CStr loc)] (collab w)) = Returns v
        /\ fst (mdl (schema_row nd v (one_hot c))
                  (collab (after_encoder enc loc w))) = Returns (p0 :: rest)
        /\ p = {| page_city := Py.title (Py.replace "City_" "" c);
                  page_location := Some loc;
                  page_bedrooms := num_bedrooms nd;
                  page_bathrooms := num_bathrooms nd;
                  page_floor_area := num_floor_area nd;
                  page_floor_no := num_floor_no nd;
                  predicted_price := Py.format_2f p0 |}
        /\ nth_error city_names i = Some (page_city p).
Proof.
  split.
  - intros H.
    destruct (predict_cases St enc mdl to_ascii f w)
      as [(_ & E) | [(_ & _ & E) | [(_ & _ & _ & E) | [(nd & _ & _ & _ & _ & E)
         | (nd & c & loc & V & Ec & Hc & El & E)]]]];
      rewrite E in H; try discriminate.
    apply validated_run_page in H.
    destruct H as (v & p0 & rest & Ee & Em & ->).
    apply In_nth_error in Hc. destruct Hc as (i & Hi).
    exists nd, i, c, loc, v, p0, rest.
    repeat (split; [assumption|]).
    unfold page_of. rewrite El. split; [reflexivity|].
    cbn [page_city].
    do 5 (destruct i as [|i]; [injection Hi as <-; reflexivity|]).
    destruct i; discriminate.
  - intros (nd & i & c & loc & v & p0 & rest & V & _ & Ec & El & Ee & Em & -> & _).
    rewrite (predict_validated_run St enc mdl to_ascii f nd c loc w V Ec El).
    unfold validated_run. cbv zeta. rewrite Ee, Em.
    unfold page_of. rewrite El. reflexivity.
Qed.

Lemma X4_prediction_page_witness :
  fst (predict (Stub.encoder (float_of_Z 7)) (Stub.model (float_of_Z 4500000))
         Stub.to_ascii
         (Stub.request_with "City" "City_narayanganj-city") (Stub.start tt))
  = prediction_page {|
      page_city := "Narayanganj-City";
      page_location := Some "Mirpur";
      page_bedrooms := 3;
      page_bathrooms := 2;
      page_floor_area := Py.round_decimal false 12005 (-1);
      page_floor_no := 4;
      predicted_price := "4,500,000.00" |}.
Proof.
  apply (proj2 (X4_prediction_page (Stub.encoder (float_of_Z 7))
                  (Stub.model (float_of_Z 4500000)) Stub.to_ascii
                  (Stub.request_with "City" "City_narayanganj-city")
                  (Stub.start tt) _)).
  exists Stub.numeric, 4%nat, "City_narayanganj-city", "Mirpur",
    (float_of_Z 7), (float_of_Z 4500000), [].
  split; [solve_validated|].
  repeat split; vm_compute; reflexivity.
Defined.

(** X5. The range check lets a floor area that is not a number, or that
    is infinite, through: [nan <= 0] and [inf <= 0] are false.  With
    positive integer fields such a request passes the four checks, and
    the encoder is called. *)
Theorem X5_nan_and_inf_pass_the_range_check {St : Type}
    (enc : frame -> St -> outcome Py.float * St)
    (mdl : frame -> St -> outcome (list Py.float) * St)
    (to_ascii : string -> string)
    (f : form) (nd : NumericData) (w : world St) :
  all_present f -> city_valid f -> parses_to to_ascii f nd ->
  0 < num_bedrooms nd -> 0 < num_bathrooms nd -> 0 < num_floor_no nd ->
  num_floor_area nd = S754_nan \/ num_floor_area nd = S754_infinity false ->
  validated to_ascii f nd
  /\ exists loc rest,
       calls (snd (predict enc mdl to_ascii f w))
       = calls w ++ EncoderTransform [("Location", CStr loc)] :: rest.
Proof.
  intros P C N Hb Hba Hfn Hfa.
  assert (V : validated to_ascii f nd).
  { repeat (split; [assumption|]).
    intros [H | [H | [H | H]]]; try lia.
    destruct Hfa as [E | E]; rewrite E in H; discriminate. }
  split; [exact V|].
  destruct (validated_fields to_ascii f nd V) as (c & loc & Ec & _ & El & _).
  rewrite (predict_validated_run St enc mdl to_ascii f nd c loc w V Ec El).
  rewrite validated_run_calls. eexists _, _. reflexivity.
Qed.

Lemma X5_nan_and_inf_pass_the_range_check_witness :
  parses_to Stub.to_ascii (Stub.request_with "Floor_area" "nan")
    {| num_bedrooms := 3; num_bathrooms := 2;
       num_floor_area := S754_nan; num_floor_no := 4 |}
  /\ validated Stub.to_ascii (Stub.request_with "Floor_area" "nan")
       {| num_bedrooms := 3; num_bathrooms := 2;
          num_floor_area := S754_nan; num_floor_no := 4 |}
  /\ exists loc rest,
       calls (snd (predict (Stub.encoder (float_of_Z 7))
                     (Stub.model (float_of_Z 4500000)) Stub.to_ascii
                     (Stub.request_with "Floor_area" "nan") (Stub.start tt)))
       = calls (Stub.start tt) ++ EncoderTransform [("Location", CStr loc)] :: rest.
Proof.
  assert (P : all_present (Stub.request_with "Floor_area" "nan")) by solve_present.
  assert (C : city_valid (Stub.request_with "Floor_area" "nan")) by solve_city.
  assert (N : parses_to Stub.to_ascii (Stub.request_with "Floor_area" "nan")
                {| num_bedrooms := 3; num_bathrooms := 2;
                   num_floor_area := S754_nan; num_floor_no := 4 |})
    by solve_parses.
  split; [exact N|].
  apply (X5_nan_and_inf_pass_the_range_check (Stub.encoder (float_of_Z 7))
           (Stub.model (float_of_Z 4500000)) Stub.to_ascii
           (Stub.request_with "Floor_area" "nan") _ (Stub.start tt) P C N);
    simpl; first [lia | tauto].
Defined.

(** ** Further properties of the assembly *)

(** X6. Whatever the submitted city, valid or not, [city_features] has
    the five cities as its keys, in order, and values 0 or 1; the values
    sum to 1 when the city is valid and to 0 when it is not. *)
Theorem X6_city_features_of_any_city (d : Data) :
  Dict.keys (city_features d) = VALID_CITIES
  /\ Forall (fun v => v = CInt 0 \/ v = CInt 1) (Dict.values (city_features d))
  /\ sum (map cell_int (Dict.values (city_features d)))
     = if in_valid_cities (city d) then 1 else 0.
Proof.
  rewrite city_features_eq. split; [reflexivity|].
  unfold in_valid_cities, Dict.values, VALID_CITIES.
  cbn [map snd existsb sum fold_right cell_int].
  destruct (city d) as [s|]; cbn [str_eq_value].
  2:{ split; [repeat constructor; tauto | reflexivity]. }
  destruct (String.eqb_spec "City_chattogram" s) as [<- | N1];
    [split; [repeat constructor; tauto | reflexivity]|].
  destruct (String.eqb_spec "City_cumilla" s) as [<- | N2];
    [split; [repeat constructor; tauto | reflexivity]|].
  destruct (String.eqb_spec "City_dhaka" s) as [<- | N3];
    [split; [repeat constructor; tauto | reflexivity]|].
  destruct (String.eqb_spec "City_gazipur" s) as [<- | N4];
    [split; [repeat constructor; tauto | reflexivity]|].
  destruct (String.eqb_spec "City_narayanganj-city" s) as [<- | N5];
    split; try reflexivity; repeat constructor; tauto.
Qed.

Lemma select_get (cols : list string) (df row : frame) :
  select cols df = Returns row ->
  row = map (fun c => (c, match Dict.get c df with Some v => v | None => CNone end)) cols
  /\ forall c, In c cols -> Dict.get c df <> None.
Proof.
  revert row. induction cols as [|c cols IH]; simpl; intros row.
  - intros [= <-]. split; [reflexivity | contradiction].
  - destruct (Dict.get c df) as [v|] eqn:G; [|discriminate].
    destruct (select cols df) as [rest|]; simpl; [|discriminate].
    intros [= <-]. destruct (IH rest eq_refl) as [-> H]. split.
    + reflexivity.
    + intros c' [<- | Hc]; [congruence | now apply H].
Qed.

Lemma select_raises (cols : list string) (df : frame) (e : exn) :
  select cols df = Raises e ->
  exists k, e = KeyError k /\ In k cols /\ Dict.get k df = None.
Proof.
  induction cols as [|c cols IH]; simpl; [discriminate|].
  destruct (Dict.get c df) as [v|] eqn:G.
  - destruct (select cols df) as [rest|e'] eqn:S; simpl; [discriminate|].
    intros [= <-]. destruct (IH eq_refl) as (k & -> & Hk & Gk).
    exists k. auto.
  - intros [= <-]. exists c. auto.
Qed.

(** X7. The assembly returns exactly when each of the ten names of
    [column_order] is a key of the dictionary; the row then holds, in the
    order of [column_order], the value found under each name, whatever
    the order of the dictionary and whatever else it holds.  Otherwise it
    raises [KeyError], for a name that is not a key. *)
Theorem X7_assembly_by_name (input : dict) :
  ((forall c, In c column_order -> Dict.get c input <> None)
   <-> exists row, assemble input = Returns row)
  /\ (forall row, assemble input = Returns row ->
        forall i c, nth_error column_order i = Some c ->
          exists v, Dict.get c input = Some v /\ nth_error row i = Some (c, v))
  /\ (forall e, assemble input = Raises e ->
        exists k, e = KeyError k /\ In k column_order /\ Dict.get k input = None).
Proof.
  unfold assemble. split; [split|split].
  - intros H. destruct (select column_order input) as [row|e] eqn:S.
    + now exists row.
    + apply select_raises in S. destruct S as (k & _ & Hk & G).
      now apply H in Hk.
  - intros (row & S). now apply select_get in S.
  - intros row S i c Hi. apply select_get in S. destruct S as [-> H].
    assert (G : Dict.get c input <> None).
    { apply H. now apply nth_error_In in Hi. }
    destruct (Dict.get c input) as [v|] eqn:E; [|congruence].
    exists v. split; [reflexivity|].
    rewrite nth_error_map, Hi. cbn. now rewrite E.
  - intros e S. now apply select_raises in S.
Qed.

Lemma X7_assembly_by_name_witness :
  (exists row, assemble Stub.input_extra = Returns row)
  /\ forall c, In c column_order -> Dict.get c Stub.input_extra <> None.
Proof.
  assert (H : exists row, assemble Stub.input_extra = Returns row).
  { eexists. vm_compute. reflexivity. }
  split; [exact H|].
  exact (proj2 (proj1 (X7_assembly_by_name Stub.input_extra)) H).
Defined.

Lemma dict_get_set_same (k : string) (v : cell) (d : dict) :
  Dict.get k (Dict.set k v d) = Some v.
Proof.
  induction d as [|[k' v'] d IH]; simpl.
  - now rewrite String.eqb_refl.
  - destruct (k' =? k)%string eqn:E; simpl.
    + now rewrite String.eqb_refl.
    + now rewrite E.
Qed.

Lemma dict_get_set_other (k k' : string) (v : cell) (d : dict) :
  k' <> k -> Dict.get k' (Dict.set k v d) = Dict.get k' d.
Proof.
  intros N. induction d as [|[k0 v0] d IH]; simpl.
  - destruct (String.eqb_spec k k'); congruence.
  - destruct (String.eqb_spec k0 k) as [-> | N0]; simpl.
    + destruct (String.eqb_spec k k'); congruence.
    + destruct (String.eqb_spec k0 k'); congruence.
Qed.

Lemma dict_keys_set (k : string) (v : cell) (d : dict) :
  Dict.keys (Dict.set k v d)
  = match Dict.get k d with
    | Some _ => Dict.keys d
    | None => Dict.keys d ++ [k]
    end.
Proof.
  unfold Dict.keys.
  induction d as [|[k0 v0] d IH]; simpl; [reflexivity|].
  destruct (String.eqb_spec k0 k) as [-> | N0]; simpl; [reflexivity|].
  rewrite IH. destruct (Dict.get k d); reflexivity.
Qed.

(** X8. Assigning to a key of a dictionary, or to a column of the frame
    (as [input_df['Location'] = ...] does), makes the new value the one
    found under this name and leaves every other name with its value; a
    name that is there keeps its place and the order of the names is
    unchanged, a new name goes to the end. *)
Theorem X8_assignment_keeps_the_order (k : string) (v : cell) (d : dict) :
  Dict.get k (Dict.set k v d) = Some v
  /\ (forall k', k' <> k -> Dict.get k' (Dict.set k v d) = Dict.get k' d)
  /\ (In k (Dict.keys d) -> Dict.keys (Dict.set k v d) = Dict.keys d)
  /\ (~ In k (Dict.keys d) -> Dict.keys (Dict.set k v d) = Dict.keys d ++ [k]).
Proof.
  split; [apply dict_get_set_same|].
  split; [intros k'; apply dict_get_set_other|].
  assert (G : In k (Dict.keys d) <-> Dict.get k d <> None).
  { induction d as [|[k0 v0] d IH]; simpl; [tauto|].
    destruct (String.eqb_spec k0 k) as [-> | N0].
    - split; [discriminate | tauto].
    - rewrite <- IH. tauto. }
  rewrite dict_keys_set. split; intros H.
  - apply G in H. destruct (Dict.get k d); congruence.
  - destruct (Dict.get k d) eqn:E; [|reflexivity].
    exfalso. apply H, G. discriminate.
Qed.

Lemma X8_assignment_keeps_the_order_witness :
  In "Location" (Dict.keys Stub.input_short)
  /\ Dict.keys (Dict.set "Location" (CFloat (float_of_Z 7)) Stub.input_short)
     = Dict.keys Stub.input_short.
Proof.
  assert (H : In "Location" (Dict.keys Stub.input_short)) by (simpl; tauto).
  split; [exact H|].
  exact (proj1 (proj2 (proj2 (X8_assignment_keeps_the_order "Location"
                                (CFloat (float_of_Z 7)) Stub.input_short))) H).
Defined.

(** ** Properties of the formatted price *)

Lemma div_half_even_nearest (n d : Z) :
  0 <= n -> 0 < d ->
  0 <= Py.div_half_even n d
  /\ Z.abs (2 * (Py.div_half_even n d * d - n)) <= d
  /\ (Z.abs (2 * (Py.div_half_even n d * d - n)) = d ->
      Z.even (Py.div_half_even n d) = true).
Proof.
  intros Hn Hd. unfold Py.div_half_even.
  pose proof (Z.div_mod n d ltac:(lia)) as E.
  pose proof (Z.mod_pos_bound n d Hd) as B.
  pose proof (Z.div_pos n d Hn Hd) as Q.
  set (q := n / d) in *. set (r := n mod d) in *.
  assert (Eq1 : q * d - n = - r) by lia.
  assert (Eq2 : (q + 1) * d - n = d - r) by lia.
  destruct (Z.compare_spec (2 * r) d) as [T | L | G].
  - destruct (Z.even q) eqn:Ev.
    + rewrite Eq1. split; [lia|]. split; [lia | auto].
    + rewrite Eq2. split; [lia|]. split; [lia|]. intros _.
      rewrite Z.even_add, Ev. reflexivity.
  - rewrite Eq1. split; [lia|]. split; lia.
  - rewrite Eq2. split; [lia|]. split; lia.
Qed.

(** X9. The price is rounded to the nearest hundredth: the hundredths
    written for a finite float [m * 2^e] are exact when [0 <= e], and
    otherwise differ from a hundred times its exact value by at most one
    half, a tie going to the even number of hundredths. *)
Theorem X9_price_is_rounded_to_nearest (m : positive) (e : Z) :
  0 <= Py.hundredths m e
  /\ (0 <= e -> Py.hundredths m e = Zpos m * 2 ^ e * 100)
  /\ (e < 0 ->
      Z.abs (2 * (Py.hundredths m e * 2 ^ (- e) - Zpos m * 100)) <= 2 ^ (- e)
      /\ (Z.abs (2 * (Py.hundredths m e * 2 ^ (- e) - Zpos m * 100)) = 2 ^ (- e) ->
          Z.even (Py.hundredths m e) = true)).
Proof.
  unfold Py.hundredths. destruct (Z.leb_spec 0 e) as [P | N].
  - split; [|split; [reflexivity | lia]].
    pose proof (Z.pow_nonneg 2 e). nia.
  - assert (D : 0 < 2 ^ (- e)) by (apply Z.pow_pos_nonneg; lia).
    destruct (div_half_even_nearest (Zpos m * 100) (2 ^ (- e)) ltac:(lia) D)
      as (H0 & H1 & H2).
    split; [exact H0|]. split; [lia|]. intros _. split; assumption.
Qed.

Lemma X9_price_is_rounded_to_nearest_witness :
  -3 < 0
  /\ Py.hundredths 1 (-3) = 12
  /\ Z.abs (2 * (Py.hundredths 1 (-3) * 2 ^ (- -3) - 1 * 100)) <= 2 ^ (- -3)
  /\ (Z.abs (2 * (Py.hundredths 1 (-3) * 2 ^ (- -3) - 1 * 100)) = 2 ^ (- -3) ->
      Z.even (Py.hundredths 1 (-3)) = true).
Proof.
  split; [lia|]. split; [reflexivity|].
  apply (proj2 (proj2 (X9_price_is_rounded_to_nearest 1 (-3)))). lia.
Defined.

Lemma digit_char_isdigit (k : Z) :
  0 <= k < 10 -> Py.isdigit (ascii_of_N (Z.to_N k + 48)) = true.
Proof.
  intros H.
  assert (C : k = 0 \/ k = 1 \/ k = 2 \/ k = 3 \/ k = 4 \/ k = 5 \/ k = 6
              \/ k = 7 \/ k = 8 \/ k = 9) by lia.
  repeat (destruct C as [-> | C]; [reflexivity|]). subst. reflexivity.
Qed.

Lemma digits_of_isdigit (fuel : nat) (n : Z) :
  Forall (fun c => Py.isdigit c = true) (Py.digits_of fuel n).
Proof.
  revert n. induction fuel as [|fuel IH]; intros n; cbn [Py.digits_of].
  - constructor.
  - cbv zeta.
    assert (D : Py.isdigit (ascii_of_N (Z.to_N (n mod 10) + 48)) = true).
    { apply digit_char_isdigit, Z.mod_pos_bound. lia. }
    destruct (n <? 10).
    + now repeat constructor.
    + apply Forall_app. split; [apply IH | now repeat constructor].
Qed.

Lemma digits_of_nonempty (fuel : nat) (n : Z) :
  Py.digits_of (S fuel) n <> [].
Proof.
  cbn [Py.digits_of]. cbv zeta. destruct (n <? 10); [discriminate|].
  intros H. apply app_eq_nil in H. destruct H as [_ H]. discriminate.
Qed.

Lemma isdigit_not_comma (c : ascii) :
  Py.isdigit c = true -> (c =? ",")%char = false.
Proof.
  intros H. destruct (Ascii.eqb_spec c ","%char) as [-> | N]; [|reflexivity].
  discriminate.
Qed.

Lemma ungroup_group_thousands (ds : list ascii) :
  Forall (fun c => Py.isdigit c = true) ds ->
  ungroup (Py.group_thousands ds) = ds.
Proof.
  induction 1 as [|d ds Hd Hds IH]; [reflexivity|].
  cbn [Py.group_thousands]. unfold ungroup in *. cbn [filter].
  rewrite (isdigit_not_comma d Hd). cbn [negb]. f_equal.
  destruct (_ && _)%bool; [|exact IH].
  cbn [filter]. rewrite Ascii.eqb_refl. exact IH.
Qed.

Lemma group_thousands_length (ds : list ascii) :
  List.length (Py.group_thousands ds)
  = (List.length ds + (List.length ds - 1) / 3)%nat.
Proof.
  induction ds as [|d ds IH]; [reflexivity|].
  cbn [Py.group_thousands List.length].
  replace (S (List.length ds) - 1)%nat with (List.length ds) by lia.
  set (L := List.length ds) in *.
  assert (E : (L / 3 = (L - 1) / 3
                       + (if ((L mod 3 =? 0) && negb (L =? 0))%nat then 1 else 0))%nat).
  { destruct (Nat.eqb_spec L 0) as [-> | N0]; [reflexivity|].
    pose proof (Nat.div_mod_eq L 3) as E1.
    pose proof (Nat.div_mod_eq (L - 1) 3) as E2.
    pose proof (Nat.mod_upper_bound L 3 ltac:(lia)) as B1.
    pose proof (Nat.mod_upper_bound (L - 1) 3 ltac:(lia)) as B2.
    destruct (Nat.eqb_spec (L mod 3) 0) as [Z0 | NZ]; cbn [andb negb]; lia. }
  destruct ((L mod 3 =? 0) && negb (L =? 0))%nat; cbn [List.length]; lia.
Qed.

(** X10. The price of a finite float is written as an optional minus
    sign, the digits of the whole part with a comma before each group of
    three, a point and two digits.  Read back without the commas, the
    digits give the whole part and the hundredths of the rounded value;
    [n] digits take [(n - 1) / 3] commas. *)
Theorem X10_price_reads_back (neg : bool) (m : positive) (e : Z) :
  exists ds d1 d2,
    Py.chars (Py.format_2f (S754_finite neg m e))
    = (if neg then ["-"%char] else [])
        ++ Py.group_thousands ds ++ ["."%char; d1; d2]
    /\ ds <> []
    /\ Forall (fun c => Py.isdigit c = true) (ds ++ [d1; d2])
    /\ Py.decimal (ungroup (Py.group_thousands ds)) = Py.hundredths m e / 100
    /\ Py.decimal [d1; d2] = Py.hundredths m e mod 100
    /\ List.length (Py.group_thousands ds)
       = (List.length ds + (List.length ds - 1) / 3)%nat.
Proof.
  destruct (X9_price_is_rounded_to_nearest m e) as (H0 & _).
  set (h := Py.hundredths m e) in *.
  pose proof (Z.mod_pos_bound h 100 ltac:(lia)) as B.
  assert (B1 : 0 <= h mod 100 / 10 < 10).
  { split; [apply Z.div_pos; lia | apply Z.div_lt_upper_bound; lia]. }
  assert (B2 : 0 <= h mod 100 mod 10 < 10) by (apply Z.mod_pos_bound; lia).
  exists (Py.str_of_nat (h / 100)),
    (ascii_of_N (Z.to_N (h mod 100 / 10) + 48)),
    (ascii_of_N (Z.to_N (h mod 100 mod 10) + 48)).
  split.
  { unfold Py.format_2f, Py.chars, Py.str. fold h.
    now rewrite list_ascii_of_string_of_list_ascii. }
  split; [apply digits_of_nonempty|].
  split.
  { apply Forall_app. split; [apply digits_of_isdigit|].
    repeat constructor; now apply digit_char_isdigit. }
  split.
  { rewrite ungroup_group_thousands by apply digits_of_isdigit.
    apply str_of_nat_decimal, Z.div_pos; lia. }
  split; [|apply group_thousands_length].
  unfold Py.decimal. cbn [fold_left].
  rewrite (digit_of_char _ B1), (digit_of_char _ B2).
  pose proof (Z.div_mod (h mod 100) 10). lia.
Qed.

(** ** Numerals in the integer fields *)

Lemma isdigit_not_space (c : ascii) : Py.isdigit c = true -> Py.isspace c = false.
Proof.
  unfold Py.isdigit, Py.isspace. cbv zeta.
  rewrite andb_true_iff, !N.leb_le. intros [L U].
  apply orb_false_iff. split.
  - apply andb_false_iff. right. apply N.leb_gt. lia.
  - apply N.eqb_neq. lia.
Qed.

Lemma lstrip_digits (l : list ascii) :
  Forall (fun c => Py.isdigit c = true) l -> Py.lstrip l = l.
Proof.
  intros [|c l' Hc _]; [reflexivity|].
  cbn [Py.lstrip]. now rewrite (isdigit_not_space c Hc).
Qed.

Lemma rstrip_digits (l : list ascii) :
  Forall (fun c => Py.isdigit c = true) l -> Py.rstrip l = l.
Proof.
  intros H. unfold Py.rstrip.
  rewrite lstrip_digits by now apply Forall_rev.
  apply rev_involutive.
Qed.

Lemma split_sign_digits (l : list ascii) :
  Forall (fun c => Py.isdigit c = true) l -> Py.split_sign l = (false, l).
Proof.
  intros [|c l' Hc _]; [reflexivity|].
  cbn [Py.split_sign].
  destruct (Ascii.eqb_spec c "-"%char) as [-> | _]; [discriminate|].
  destruct (Ascii.eqb_spec c "+"%char) as [-> | _]; [discriminate|].
  reflexivity.
Qed.

Lemma digits_with_underscores_digits (l : list ascii) :
  Forall (fun c => Py.isdigit c = true) l ->
  Py.digits_with_underscores true l = Some l
  /\ (l <> [] -> Py.digits_with_underscores false l = Some l).
Proof.
  induction 1 as [|c l Hc Hl [IH _]].
  - split; [reflexivity | congruence].
  - cbn [Py.digits_with_underscores]. rewrite Hc, IH. split; reflexivity.
Qed.

Lemma digits_of_length (fuel : nat) (n : Z) (k : nat) :
  0 <= n < 10 ^ Z.of_nat k -> (1 <= k)%nat ->
  (List.length (Py.digits_of fuel n) <= k)%nat.
Proof.
  revert n k. induction fuel as [|fuel IH]; intros n k H K;
    cbn [Py.digits_of]; [cbn; lia|].
  cbv zeta. destruct (Z.ltb_spec n 10) as [L | L]; [cbn; lia|].
  rewrite length_app. cbn [List.length].
  destruct k as [|k]; [lia|].
  rewrite Nat2Z.inj_succ, Z.pow_succ_r in H by lia.
  assert (K' : (1 <= k)%nat).
  { destruct k; [|lia]. change (10 ^ Z.of_nat 0) with 1 in H. lia. }
  assert (B : 0 <= n / 10 < 10 ^ Z.of_nat k).
  { split; [apply Z.div_pos; lia | apply Z.div_lt_upper_bound; lia]. }
  pose proof (IH (n / 10) k B K'). lia.
Qed.

Lemma int_of_digits (neg : bool) (ds : list ascii) :
  Forall (fun c => Py.isdigit c = true) ds -> ds <> [] ->
  (List.length ds <= Py.int_max_str_digits)%nat ->
  Py.int_of_ascii (Py.str ((if neg then ["-"%char] else []) ++ ds))
  = Returns (if neg then - Py.decimal ds else Py.decimal ds).
Proof.
  intros D N L. unfold Py.int_of_ascii, Py.chars, Py.str.
  rewrite list_ascii_of_string_of_list_ascii.
  assert (E : Py.split_sign (Py.lstrip ((if neg then ["-"%char] else []) ++ ds))
              = (neg, ds)).
  { destruct neg; cbn [app].
    - reflexivity.
    - now rewrite lstrip_digits, split_sign_digits. }
  rewrite E, rstrip_digits by assumption.
  rewrite (proj2 (digits_with_underscores_digits ds D) N).
  destruct (Nat.ltb_spec Py.int_max_str_digits (List.length ds)); [lia|].
  reflexivity.
Qed.

Lemma isdigit_is_ascii (c : ascii) :
  Py.isdigit c = true -> (Py.code c <? 128)%N = true.
Proof.
  unfold Py.isdigit. cbv zeta. rewrite andb_true_iff, !N.leb_le.
  intros [_ U]. apply N.ltb_lt. lia.
Qed.

Lemma numeral_is_ascii (n : Z) :
  Py.is_ascii (numeral n) = true
  /\ Py.is_ascii ("-" ++ numeral n)%string = true.
Proof.
  assert (A : forallb (fun c => (Py.code c <? 128)%N) (Py.str_of_nat n) = true).
  { apply forallb_forall. intros c Hc. apply isdigit_is_ascii.
    pose proof (digits_of_isdigit (S (Z.to_nat (Z.log2 n))) n) as D.
    rewrite Forall_forall in D. now apply D. }
  unfold Py.is_ascii, numeral, Py.chars, Py.str. cbn [append list_ascii_of_string].
  rewrite list_ascii_of_string_of_list_ascii. split; [exact A|].
  cbn [forallb]. rewrite A. reflexivity.
Qed.

Lemma int_of_numeral_ascii (n : Z) :
  0 <= n < 10 ^ Z.of_nat Py.int_max_str_digits ->
  Py.int_of_ascii (numeral n) = Returns n
  /\ Py.int_of_ascii ("-" ++ numeral n)%string = Returns (- n).
Proof.
  intros H. unfold numeral.
  assert (D : Forall (fun c => Py.isdigit c = true) (Py.str_of_nat n))
    by apply digits_of_isdigit.
  assert (N : Py.str_of_nat n <> []) by apply digits_of_nonempty.
  assert (L : (List.length (Py.str_of_nat n) <= Py.int_max_str_digits)%nat).
  { apply digits_of_length; [exact H | unfold Py.int_max_str_digits; lia]. }
  pose proof (int_of_digits false _ D N L) as E0.
  pose proof (int_of_digits true _ D N L) as E1.
  cbn [app] in E0, E1.
  rewrite str_of_nat_decimal in E0, E1 by lia.
  split; [exact E0|].
  unfold Py.str in *. exact E1.
Qed.

Lemma int_of_numeral (to_ascii : string -> string) (n : Z) :
  ascii_preserving to_ascii ->
  0 <= n < 10 ^ Z.of_nat Py.int_max_str_digits ->
  Py.int_of_str to_ascii (numeral n) = Returns n
  /\ Py.int_of_str to_ascii ("-" ++ numeral n)%string = Returns (- n).
Proof.
  intros A H. unfold Py.int_of_str.
  destruct (numeral_is_ascii n) as [A0 A1].
  rewrite (A _ A0), (A _ A1). now apply int_of_numeral_ascii.
Qed.

(** X11. [int] reads back what [str] writes: for [0 <= n] of at most 4300
    digits, the numeral of [n] is read as [n], and the numeral with a
    minus sign before it as [- n], whatever the tables of the
    interpreter (a numeral is ASCII). *)
Theorem X11_int_reads_numerals (to_ascii : string -> string) (n : Z) :
  ascii_preserving to_ascii ->
  0 <= n < 10 ^ Z.of_nat Py.int_max_str_digits ->
  Py.int_of_str to_ascii (numeral n) = Returns n
  /\ Py.int_of_str to_ascii ("-" ++ numeral n)%string = Returns (- n)
  /\ Py.decimal (Py.chars (numeral n)) = n
  /\ Forall (fun c => Py.isdigit c = true) (Py.chars (numeral n)).
Proof.
  intros A H. destruct (int_of_numeral to_ascii n A H) as [E0 E1].
  split; [exact E0|]. split; [exact E1|].
  unfold numeral, Py.chars, Py.str.
  rewrite list_ascii_of_string_of_list_ascii.
  split; [apply str_of_nat_decimal; lia | apply digits_of_isdigit].
Qed.

Lemma X11_int_reads_numerals_witness :
  0 <= 1200 < 10 ^ Z.of_nat Py.int_max_str_digits
  /\ numeral 1200 = "1200"
  /\ Py.int_of_str Stub.to_ascii (numeral 1200) = Returns 1200
  /\ Py.int_of_str Stub.to_ascii ("-" ++ numeral 1200)%string = Returns (- 1200)
  /\ Py.decimal (Py.chars (numeral 1200)) = 1200
  /\ Forall (fun c => Py.isdigit c = true) (Py.chars (numeral 1200)).
Proof.
  assert (H : 0 <= 1200 < 10 ^ Z.of_nat Py.int_max_str_digits).
  { split; [lia|]. apply Z.lt_le_trans with (10 ^ 4); [lia|].
    apply Z.pow_le_mono_r; [lia|]. unfold Py.int_max_str_digits. lia. }
  split; [exact H|]. split; [reflexivity|].
  exact (X11_int_reads_numerals Stub.to_ascii 1200 (fun s _ => eq_refl) H).
Defined.

(** X12. A zero or a negative numeral in one of the three integer fields
    of a request that is otherwise well formed (all fields present, valid
    city, numeric fields that parse) gets the range message: it is
    neither missing nor an invalid number. *)
Theorem X12_zero_and_negative_numerals {St : Type}
    (enc : frame -> St -> outcome Py.float * St)
    (mdl : frame -> St -> outcome (list Py.float) * St)
    (to_ascii : string -> string)
    (f : form) (nd : NumericData) (k : string) (n : Z) (w : world St) :
  ascii_preserving to_ascii ->
  all_present f -> city_valid f -> parses_to to_ascii f nd ->
  In k ["Bedrooms"; "Bathrooms"; "Floor_no"] ->
  0 <= n < 10 ^ Z.of_nat Py.int_max_str_digits ->
  form_get k f = Some (numeral 0)
  \/ form_get k f = Some ("-" ++ numeral n)%string ->
  predict enc mdl to_ascii f w = (home_page MSG_RANGE, w).
Proof.
  intros A P C N Hk Hn Hv.
  assert (E : exists z, z <= 0 /\ Py.int to_ascii (form_get k f) = Returns z).
  { destruct Hv as [-> | ->]; cbn [Py.int].
    - exists 0. split; [lia|].
      unfold Py.int_of_str. now rewrite (A (numeral 0) eq_refl).
    - exists (- n). split; [lia | now apply int_of_numeral]. }
  destruct E as (z & Hz & E).
  apply (predict_range St enc mdl to_ascii f nd w P C N).
  destruct N as (Nb & Nba & _ & Nfn). unfold out_of_range.
  simpl in Hk. destruct Hk as [<- | [<- | [<- | []]]].
  - left. congruence.
  - right. left. congruence.
  - right. right. right. congruence.
Qed.

Lemma X12_zero_and_negative_numerals_witness :
  form_get "Floor_no" (Stub.request_with "Floor_no" "-4")
  = Some ("-" ++ numeral 4)%string
  /\ predict (Stub.encoder (float_of_Z 7)) (Stub.model (float_of_Z 4500000))
       Stub.to_ascii
       (Stub.request_with "Floor_no" "-4") (Stub.start tt)
     = (home_page "All numeric values must be greater than 0.", Stub.start tt).
Proof.
  assert (P : all_present (Stub.request_with "Floor_no" "-4")) by solve_present.
  assert (C : city_valid (Stub.request_with "Floor_no" "-4")) by solve_city.
  assert (N : parses_to Stub.to_ascii (Stub.request_with "Floor_no" "-4")
                {| num_bedrooms := 3; num_bathrooms := 2;
                   num_floor_area := Py.round_decimal false 12005 (-1);
                   num_floor_no := -4 |}) by solve_parses.
  assert (H : 0 <= 4 < 10 ^ Z.of_nat Py.int_max_str_digits).
  { split; [lia|]. apply Z.lt_le_trans with (10 ^ 1); [lia|].
    apply Z.pow_le_mono_r; [lia|]. unfold Py.int_max_str_digits. lia. }
  split; [reflexivity|].
  apply (X12_zero_and_negative_numerals (Stub.encoder (float_of_Z 7))
           (Stub.model (float_of_Z 4500000)) Stub.to_ascii
           (Stub.request_with "Floor_no" "-4") _ "Floor_no" 4 (Stub.start tt)
           (fun s _ => eq_refl) P C N);
    [simpl; tauto | exact H | right; reflexivity].
Defined.

(** ** Loading at import *)

(** X13. The module is imported, with its two collaborators, exactly when
    both files exist and both load.  A missing model file is a
    [FileNotFoundError] whatever the encoder file; the encoder file is
    only looked at once the model is loaded, and what loading the model
    raises is raised, unchanged, by the import. *)
Theorem X13_both_files_or_no_start {Obj : Type}
    (path_exists : string -> bool) (pickle_load : string -> outcome Obj) :
  (forall model target_encoder,
      load_models path_exists pickle_load = Returns (model, target_encoder)
      <-> path_exists MODEL_PATH = true
          /\ pickle_load MODEL_PATH = Returns model
          /\ path_exists ENCODER_PATH = true
          /\ pickle_load ENCODER_PATH = Returns target_encoder)
  /\ (path_exists MODEL_PATH = false ->
      load_models path_exists pickle_load = Raises FileNotFoundError)
  /\ (forall e, path_exists MODEL_PATH = true ->
                pickle_load MODEL_PATH = Raises e ->
                load_models path_exists pickle_load = Raises e)
  /\ (forall model, path_exists MODEL_PATH = true ->
                    pickle_load MODEL_PATH = Returns model ->
                    path_exists ENCODER_PATH = false ->
                    load_models path_exists pickle_load = Raises FileNotFoundError).
Proof.
  unfold load_models, load_file. repeat split.
  - destruct (path_exists MODEL_PATH); [reflexivity|discriminate].
  - destruct (path_exists MODEL_PATH); [|discriminate].
    destruct (pickle_load MODEL_PATH); cbn [obind] in *; [|discriminate].
    destruct (path_exists ENCODER_PATH); [|discriminate].
    destruct (pickle_load ENCODER_PATH); cbn [obind] in *; congruence.
  - destruct (path_exists MODEL_PATH); [|discriminate].
    destruct (pickle_load MODEL_PATH); cbn [obind] in *; [|discriminate].
    destruct (path_exists ENCODER_PATH); [reflexivity|discriminate].
  - destruct (path_exists MODEL_PATH); [|discriminate].
    destruct (pickle_load MODEL_PATH); cbn [obind] in *; [|discriminate].
    destruct (path_exists ENCODER_PATH); [|discriminate].
    destruct (pickle_load ENCODER_PATH); cbn [obind] in *; congruence.
  - intros (-> & -> & -> & ->). reflexivity.
  - intros ->. reflexivity.
  - intros e -> ->. reflexivity.
  - intros model -> -> ->. reflexivity.
Qed.

Lemma X13_both_files_or_no_start_witness :
  load_models (fun path => (path =? "model1.pkl")%string)
    (fun _ => Returns tt)
  = Raises FileNotFoundError.
Proof.
  exact (proj2 (proj2 (proj2 (X13_both_files_or_no_start
                                (fun path => (path =? "model1.pkl")%string)
                                (fun _ => Returns tt))))
           tt eq_refl eq_refl eq_refl).
Defined.
